(** * Clawtographer: packing, cached dispatch and budget-aware synthesis

    A shallow embedding of [cartographer.py] (class [Clawtographer]):
    - [create_chunks]   : the unit packer (descending sort, greedy walk);
    - [analyze_chunk]   : cache-or-compute dispatch of one chunk;
    - [analyze_chunks]  : dispatch of all chunks;
    - [synthesize_map]  : summaries, ceiling test, backend call or fallback;
    - [run]             : the pipeline and the cache clean-up.

    Python integers are [Z]; text is [string], one character of the model
    being one character of the Python [str]; a directory is a finite map
    from file names to file contents, and reading, writing and unlinking a
    file succeed; the processes started through [subprocess.run], the
    tokenizer, the clock and the completion order of the worker pool are
    inputs of the model. Messages printed on the way are left out.

    Further down: [should_ignore], [scan_codebase], [_check_ollama], and,
    in [Raising], the token count, the synthesizer and the run with the
    exception the tokenizer can raise. *)

From stdpp Require Import base list sorting gmap strings pretty.
From Stdlib Require Import ZArith Lia.

Local Open Scope Z_scope.

(** ** Python list sorting

    [list.sort(key=..., reverse=...)] is a stable sort: items whose keys
    compare equal keep their relative order, also under [reverse=True].
    A stable sort has one possible result, computed here by insertion. *)

Module PySort.
Section by_key.
Context {A : Type} (key : A → Z) (reverse : bool).

(** [before x y]: [x] may stand in front of [y] in the sorted list. *)
Definition before (x y : A) : bool :=
  if reverse then key y <=? key x else key x <=? key y.

Fixpoint insert (x : A) (l : list A) : list A :=
  match l with
  | [] => [x]
  | y :: l' => if before x y then x :: y :: l' else y :: insert x l'
  end.

Fixpoint sort (l : list A) : list A :=
  match l with
  | [] => []
  | x :: l' => insert x (sort l')
  end.

(** The order of the keys in the result. *)
Definition key_order (x y : A) : Prop :=
  if reverse then key y ≤ key x else key x ≤ key y.
End by_key.
End PySort.

(** ** The packer *)

(** One scanned file: the dict built by [scan_codebase]. *)
Record file_info := FileInfo {
  path : string;
  full_path : string;
  tokens : Z;
  content : string
}.

Definition chunk := list file_info.

Definition total_tokens (c : chunk) : Z := foldr (λ f acc, tokens f + acc) 0 c.

Module Packer.

(** State of the [for file_info in files] loop of [create_chunks]. *)
Record walk := Walk {
  chunks : list chunk;
  current_chunk : chunk;
  current_tokens : Z
}.

(** One iteration of the loop body. *)
Definition step (max_tokens : Z) (w : walk) (file_info : file_info) : walk :=
  if tokens file_info >? max_tokens then
    Walk (chunks w ++ [[file_info]]) (current_chunk w) (current_tokens w)
  else if current_tokens w + tokens file_info >? max_tokens then
    Walk (chunks w ++ [current_chunk w]) [file_info] (tokens file_info)
  else
    Walk (chunks w) (current_chunk w ++ [file_info])
         (current_tokens w + tokens file_info).

Definition loop (max_tokens : Z) (files : list file_info) (w : walk) : walk :=
  foldl (step max_tokens) w files.

(** [if current_chunk: chunks.append(current_chunk)] *)
Definition finish (w : walk) : list chunk :=
  match current_chunk w with
  | [] => chunks w
  | _ :: _ => chunks w ++ [current_chunk w]
  end.

(** [files.sort(key=lambda x: x['tokens'], reverse=True)] *)
Definition sort_files (files : list file_info) : list file_info :=
  PySort.sort tokens true files.

(** [create_chunks(files)] with [max_tokens = config["max_tokens_per_chunk"]].
    The method sorts the list object it is given, so it is a state
    transformer on the content of that object: it returns the chunks and
    the content of [files] after the call. *)
Definition create_chunks (max_tokens : Z) (files : list file_info)
    : list chunk * list file_info :=
  let files := sort_files files in
  (finish (loop max_tokens files (Walk [] [] 0)), files).

(** The same call with the argument passed by reference, as Python does:
    a store of list objects, [files] the address of the caller's list.
    Every name bound to that address sees the list the call leaves. *)
Definition loc := nat.

Definition create_chunks_ref (max_tokens : Z) (files : loc)
    (store : gmap loc (list file_info))
    : option (list chunk * gmap loc (list file_info)) :=
  match store !! files with
  | None => None
  | Some l =>
      let '(chunks, l') := create_chunks max_tokens l in
      Some (chunks, <[files := l']> store)
  end.

End Packer.

(** ** Python text operations *)

Module PyStr.

(** The line feed written [\n] in the source. *)
Definition nl : string := String (Ascii.ascii_of_nat 10) EmptyString.

(** [len(s)] *)
Definition len (s : string) : Z := Z.of_nat (String.length s).

(** [s.startswith(p)] *)
Definition startswith (p s : string) : bool := String.prefix p s.

(** [s[:n]] for a literal [n ≥ 0] *)
Definition slice_to (n : nat) (s : string) : string := String.substring 0 n s.

(** [sep.join(l)] *)
Definition join (sep : string) (l : list string) : string := String.concat sep l.

(** [str.isspace] on one character (code points below 256). *)
Definition isspace (c : Ascii.ascii) : bool :=
  let n := Ascii.nat_of_ascii c in
  ((9 <=? n) && (n <=? 13) || (28 <=? n) && (n <=? 32)
   || (n =? 133) || (n =? 160))%nat.

Fixpoint lstrip (s : string) : string :=
  match s with
  | EmptyString => EmptyString
  | String c s' => if isspace c then lstrip s' else s
  end.

Definition rstrip (s : string) : string := String.rev (lstrip (String.rev s)).

(** [s.strip()] *)
Definition strip (s : string) : string := rstrip (lstrip s).

(** Truth value of a string: [not s] holds of the empty string only. *)
Definition is_empty (s : string) : bool :=
  match s with EmptyString => true | String _ _ => false end.

(** A text given line by line, as in a triple-quoted literal. *)
Definition lines (l : list string) : string := join nl l.

(** [f"{n:03d}"] for [n ≥ 0]: decimal digits, zero-padded to width 3. *)
Definition format_03d (n : nat) : string :=
  let digits := pretty n in
  match String.length digits with
  | 0%nat => "000" +:+ digits
  | 1%nat => "00" +:+ digits
  | 2%nat => "0" +:+ digits
  | _ => digits
  end.

End PyStr.

(** ** The world outside the process *)

(** What [subprocess.run(["ollama", "run", model], input=prompt,
    capture_output=True, text=True, timeout=...)] can do. *)
Inductive run_outcome :=
  | Completed (returncode : Z) (stdout stderr : string)
  | TimeoutExpired
  | Raised (message : string).

(** The calls that are kept track of. *)
Inductive event :=
  | OllamaRun (prompt : string)
  | CountTokens (text : string).

(** Files are kept per directory, by file name. [trace] is the history of
    backend and tokenizer calls, oldest first. *)
Record world := World {
  cache_dir : gmap string string;
  output_dir : gmap string string;
  trace : list event
}.

(** The prompts sent to the backend so far. *)
Definition backend_calls (w : world) : list string :=
  omap (λ e, match e with OllamaRun p => Some p | CountTokens _ => None end)
       (trace w).

(** One result of the dispatcher: [(chunk_id, analysis, from_cache)]. *)
Definition analysis : Type := nat * string * bool.

(** What the process cannot decide: configuration, tokenizer, backend,
    clock, and the order in which the worker pool completes. The backend
    answers its [n]-th call (counted from 0 over the whole history) on
    [prompt] with [ollama n prompt]. *)
Record environment := Environment {
  model : string;
  codebase_path : string;
  output_path : string;
  max_tokens_per_chunk : Z;
  count_tokens_of : string → Z;
  ollama : nat → string → run_outcome;
  now_strftime : string;
  now_isoformat : string;
  as_completed : list analysis → list analysis
}.

(** A pool completes every future it was given exactly once. *)
Definition pool_complete (env : environment) : Prop :=
  ∀ l : list analysis, as_completed env l ≡ₚ l.

(** ** A state monad over the world *)

Definition M (A : Type) : Type := world → A * world.

#[global] Instance M_ret : MRet M := λ A (a : A) w, (a, w).

#[global] Instance M_bind : MBind M :=
  λ A B (k : A → M B) (m : M A) w, let '(a, w') := m w in k a w'.

(** [for (i, x) in enumerate(l, start)]: run the body on each and collect. *)
Fixpoint for_enumerate {A B} (body : nat → A → M B) (start : nat) (l : list A)
    : M (list B) :=
  match l with
  | [] => mret []
  | x :: l' =>
      y ← body start x;
      ys ← for_enumerate body (S start) l';
      mret (y :: ys)
  end.

(** [for x in l: body(x)] *)
Fixpoint for_each {A} (body : A → M unit) (l : list A) : M unit :=
  match l with
  | [] => mret tt
  | x :: l' => body x;; for_each body l'
  end.

Definition chunk_id_of (a : analysis) : nat := a.1.1.
Definition text_of (a : analysis) : string := a.1.2.
Definition from_cache_of (a : analysis) : bool := a.2.

(** [analysis.startswith("ERROR:")], the test [run] classifies with. *)
Definition is_error (a : analysis) : bool := PyStr.startswith "ERROR:" (text_of a).

(** The ids [run] collects in [errors] and in [successful_chunks]. *)
Definition failed_ids (analyses : list analysis) : list nat :=
  chunk_id_of <$> filter (λ a, is_error a = true) analyses.

Definition successful_ids (analyses : list analysis) : list nat :=
  chunk_id_of <$> filter (λ a, is_error a = false) analyses.

(** [f"chunk_{chunk_id:03d}.md"], the name of a chunk's file in the cache. *)
Definition cache_file (chunk_id : nat) : string :=
  "chunk_" +:+ PyStr.format_03d chunk_id +:+ ".md".

Definition map_file : string := "CODEBASE_MAP.md".
Definition timestamp_file : string := ".clawtographer_timestamp".

Section Clawtographer.
Context (env : environment).

(** *** Effects *)

Definition log (e : event) : M unit :=
  λ w, (tt, World (cache_dir w) (output_dir w) (trace w ++ [e])).

(** [self.count_tokens(text)], where the tokenizer returns; the call that
    may raise is [Raising.count_tokens]. *)
Definition count_tokens (text : string) : M Z :=
  log (CountTokens text);; mret (count_tokens_of env text).

(** [subprocess.run(["ollama", "run", self.model], input=prompt, ...)] *)
Definition ollama_run (prompt : string) : M run_outcome :=
  λ w, (ollama env (length (backend_calls w)) prompt,
        World (cache_dir w) (output_dir w) (trace w ++ [OllamaRun prompt])).

(** [cache_file.read_text() if cache_file.exists()] *)
Definition cache_lookup (name : string) : M (option string) :=
  λ w, (cache_dir w !! name, w).

(** [cache_file.write_text(text)] *)
Definition cache_write (name text : string) : M unit :=
  λ w, (tt, World (<[name := text]> (cache_dir w)) (output_dir w) (trace w)).

(** [cache_file.unlink()] *)
Definition cache_unlink (name : string) : M unit :=
  λ w, (tt, World (delete name (cache_dir w)) (output_dir w) (trace w)).

(** [(self.output_dir / name).write_text(text)] *)
Definition output_write (name text : string) : M unit :=
  λ w, (tt, World (cache_dir w) (<[name := text]> (output_dir w)) (trace w)).

(** *** [analyze_chunk] *)

Definition analysis_prompt (chunk : chunk) : string :=
  let file_list := PyStr.join PyStr.nl (map (λ f, "- " +:+ path f) chunk) in
  let files_content :=
    PyStr.join (PyStr.nl +:+ PyStr.nl)
      (map (λ f, "=== " +:+ path f +:+ " ===" +:+ PyStr.nl +:+ content f) chunk) in
  PyStr.lines [
    "Analyze these code files:";
    "";
    file_list;
    "";
    "For each file, describe:";
    "1. Purpose and main responsibility";
    "2. Key functions, classes, or exports";
    "3. Dependencies (what it imports/requires)";
    "4. Important patterns or logic";
    "";
    "Files:";
    files_content;
    "";
    "Provide clear, concise analysis in markdown format."
  ].

Definition analyze_chunk (chunk_id : nat) (chunk : chunk) : M analysis :=
  let cache_file := cache_file chunk_id in
  cached ← cache_lookup cache_file;
  match cached with
  | Some text => mret (chunk_id, text, true)
  | None =>
      let prompt := analysis_prompt chunk in
      result ← ollama_run prompt;
      match result with
      | Completed returncode stdout stderr =>
          if returncode =? 0 then
            let analysis := PyStr.strip stdout in
            if PyStr.is_empty analysis then
              mret (chunk_id, "ERROR: Ollama returned empty response", false)
            else
              cache_write cache_file analysis;;
              mret (chunk_id, analysis, false)
          else
            mret (chunk_id, "ERROR: Ollama failed - " +:+ stderr, false)
      | TimeoutExpired =>
          mret (chunk_id, "ERROR: Analysis timed out (>5 min)", false)
      | Raised e =>
          mret (chunk_id, "ERROR: " +:+ e, false)
      end
  end.

(** *** [analyze_chunks]

    Each worker runs [analyze_chunk] on its own chunk and touches no file
    but that chunk's cache file; the workers are run here one after the
    other in submission order, and their results are handed over in the
    order the pool completes them. *)
Definition analyze_chunks (chunks : list chunk) : M (list analysis) :=
  analyses ← for_enumerate analyze_chunk 0%nat chunks;
  mret (as_completed env analyses).

(** *** [_create_final_map] *)

Definition _create_final_map (content : string) (synthesized : bool) : string :=
  let synthesis_note :=
    if synthesized then "synthesized"
    else "concatenated (too large for synthesis)" in
  PyStr.lines [
    "# Codebase Map";
    "";
    "**Generated:** " +:+ now_strftime env;
    "**Tool:** Clawtographer (OpenClaw)";
    "**Model:** " +:+ model env +:+ " (local/free)";
    "**Location:** " +:+ codebase_path env;
    "**Analysis:** " +:+ synthesis_note;
    "";
    "---";
    "";
    content;
    "";
    "---";
    "";
    "*This map was automatically generated by Clawtographer using local LLM analysis.  ";
    "To update: re-run `python3 ~/clawtographer/cartographer.py "
      +:+ codebase_path env +:+ "`*";
    ""
  ].

(** *** [synthesize_map] *)

(** [analyses.sort(key=lambda x: x[0])] *)
Definition sort_analyses (analyses : list analysis) : list analysis :=
  PySort.sort (λ x, Z.of_nat (chunk_id_of x)) false analyses.

(** One entry of [chunk_summaries]. *)
Definition chunk_summary (a : analysis) : string :=
  let '(cid, analysis, _) := a in
  let summary := PyStr.slice_to 2000 analysis in
  let summary :=
    if PyStr.len analysis >? 2000
    then summary +:+ PyStr.nl +:+ "... (truncated)" else summary in
  "## Chunk " +:+ pretty (cid + 1)%nat +:+ PyStr.nl +:+ summary.

Definition combined_summaries (analyses : list analysis) : string :=
  PyStr.join (PyStr.nl +:+ PyStr.nl) (map chunk_summary analyses).

(** One block of [combined_full]. *)
Definition analysis_block (a : analysis) : string :=
  let '(cid, analysis, _) := a in
  "## Analysis Block " +:+ pretty (cid + 1)%nat
    +:+ PyStr.nl +:+ PyStr.nl +:+ analysis.

Definition block_separator : string :=
  PyStr.nl +:+ PyStr.nl +:+ "---" +:+ PyStr.nl +:+ PyStr.nl.

Definition combined_full (analyses : list analysis) : string :=
  PyStr.join block_separator (map analysis_block analyses).

Definition synthesis_prompt (combined_summaries : string) : string :=
  PyStr.lines [
    "You are creating a comprehensive CODEBASE MAP from multiple code analyses.";
    "";
    "Here are summaries from different parts of the codebase:";
    "";
    combined_summaries;
    "";
    "Create a well-organized codebase map with:";
    "";
    "1. **Overview** - What this codebase does (high-level purpose)";
    "2. **Architecture** - Main components and how they relate";
    "3. **Directory Structure** - Key directories and their purposes";
    "4. **Important Files** - Critical files and what they do";
    "5. **Data Flow** - How information moves through the system";
    "6. **Entry Points** - Where execution begins";
    "7. **Dependencies** - External libraries and internal dependencies";
    "";
    "Make it clear, organized, and useful for someone learning this codebase.";
    "Use markdown formatting with headers and lists."
  ].

(** The list [analyses] is sorted in place in the source; [run] has no use
    of its order afterwards, so only the sorted value is kept here. *)
Definition synthesize_map (analyses : list analysis) : M string :=
  let analyses := sort_analyses analyses in
  let combined_summaries := combined_summaries analyses in
  summary_tokens ← count_tokens combined_summaries;
  if summary_tokens >? 100000 then
    mret (_create_final_map (combined_full analyses) false)
  else
    result ← ollama_run (synthesis_prompt combined_summaries);
    match result with
    | Completed returncode stdout _ =>
        if returncode =? 0 then
          let synthesized := stdout in
          mret (_create_final_map synthesized true)
        else
          mret (_create_final_map (combined_full analyses) false)
    | TimeoutExpired =>
        mret (_create_final_map (combined_full analyses) false)
    | Raised _ =>
        mret (_create_final_map (combined_full analyses) false)
    end.

(** *** [run] *)

(** The clean-up loop body: unlink the chunk's cache file if it exists. *)
Definition clean_cache (chunk_id : nat) : M unit :=
  let cache_file := cache_file chunk_id in
  cached ← cache_lookup cache_file;
  match cached with
  | Some _ => cache_unlink cache_file
  | None => mret tt
  end.

(** [run()], from the result [files] of [scan_codebase] on. It returns
    [None] where the source does and [Some output_path] otherwise. The
    clean-up loop stands under [if successful_chunks:], which holds where
    it is reached. *)
Definition run (files : list file_info) : M (option string) :=
  match files with
  | [] => mret None
  | _ :: _ =>
      let '(chunks, files) :=
        Packer.create_chunks (max_tokens_per_chunk env) files in
      analyses ← analyze_chunks chunks;
      let errors := failed_ids analyses in
      let successful_chunks := successful_ids analyses in
      match successful_chunks with
      | [] => mret None
      | _ :: _ =>
          final_map ← synthesize_map analyses;
          output_write map_file final_map;;
          output_write timestamp_file (now_isoformat env);;
          for_each clean_cache successful_chunks;;
          mret (Some (output_path env))
      end
  end.

End Clawtographer.

(** ** Vocabulary of the statements *)

(** [enumerate(l, start)] *)
Definition enumerate_from {A} (start : nat) (l : list A) : list (nat * A) :=
  zip (seq start (length l)) l.

(** A chunk, with its id, that has no file in the cache. *)
Definition uncached (w : world) (ic : nat * chunk) : Prop :=
  cache_dir w !! cache_file ic.1 = None.

#[global] Instance uncached_dec w ic : Decision (uncached w ic).
Proof. unfold uncached. apply _. Defined.

(** The analysis prompts of the chunks that have no file in the cache. *)
Definition uncached_prompts (w : world) (start : nat) (chunks : list chunk)
    : list string :=
  (λ ic, analysis_prompt ic.2) <$> filter (uncached w) (enumerate_from start chunks).

(** The chunks [run] dispatches for the scanned [files]. *)
Definition chunks_of (env : environment) (files : list file_info) : list chunk :=
  (Packer.create_chunks (max_tokens_per_chunk env) files).1.

(** The world after a backend call on [prompt]. *)
Definition called (prompt : string) (w : world) : world :=
  World (cache_dir w) (output_dir w) (trace w ++ [OllamaRun prompt]).

(** What a finished unit may be: within the budget, or one file that is
    over the budget by itself. *)
Definition unit_ok (max_tokens : Z) (c : chunk) : Prop :=
  total_tokens c ≤ max_tokens ∨ ∃ f, c = [f] ∧ max_tokens < tokens f.

(** Invariant of the packer's walk. *)
Record walk_ok (max_tokens : Z) (w : Packer.walk) : Prop := {
  closed_ok : Forall (unit_ok max_tokens) (Packer.chunks w);
  closed_nonempty : Forall (λ c, c ≠ []) (Packer.chunks w);
  tokens_counted : Packer.current_tokens w = total_tokens (Packer.current_chunk w);
  current_fits :
    Packer.current_chunk w = []
    ∨ total_tokens (Packer.current_chunk w) ≤ max_tokens
}.

(** The files of a walk: closed units, then the open one. *)
Definition walk_files (w : Packer.walk) : list file_info :=
  concat (Packer.chunks w) ++ Packer.current_chunk w.

(** [t] occurs in [s]. *)
Definition contains (s t : string) : Prop := ∃ pre post, s = pre +:+ t +:+ post.

(** The part of the final map in front of the content, and the part after. *)
Definition map_header (env : environment) (synthesized : bool) : string :=
  PyStr.lines [
    "# Codebase Map";
    "";
    "**Generated:** " +:+ now_strftime env;
    "**Tool:** Clawtographer (OpenClaw)";
    "**Model:** " +:+ model env +:+ " (local/free)";
    "**Location:** " +:+ codebase_path env;
    "**Analysis:** " +:+ (if synthesized then "synthesized"
                          else "concatenated (too large for synthesis)");
    "";
    "---";
    "";
    ""
  ].

Definition map_footer (env : environment) : string :=
  PyStr.lines [
    "";
    "";
    "---";
    "";
    "*This map was automatically generated by Clawtographer using local LLM analysis.  ";
    "To update: re-run `python3 ~/clawtographer/cartographer.py "
      +:+ codebase_path env +:+ "`*";
    ""
  ].

(** The content of a concatenated map, in the words of its description:
    for each result a section, made of the section header with the
    chunk's number (counted from 1), an empty line and the full text of
    the result; a rule between one section and the next. *)
Definition section_header (chunk_id : nat) : string :=
  "## Analysis Block " +:+ pretty (chunk_id + 1)%nat.

Fixpoint sections (results : list analysis) : string :=
  match results with
  | [] => ""
  | a :: rest =>
      let section :=
        section_header (chunk_id_of a) +:+ PyStr.nl +:+ PyStr.nl +:+ text_of a in
      match rest with
      | [] => section
      | _ :: _ =>
          section +:+ PyStr.nl +:+ PyStr.nl +:+ "---" +:+ PyStr.nl +:+ PyStr.nl
            +:+ sections rest
      end
  end.

(** The reduced representation of the results: for each result the header
    of its chunk and, on the next line, the text itself when it has at
    most 2000 characters, else its first 2000 characters and the
    truncation mark; an empty line between one result and the next. *)
Definition reduced_text (text : string) : string :=
  if (String.length text <=? 2000)%nat then text
  else String.substring 0 2000 text +:+ PyStr.nl +:+ "... (truncated)".

Fixpoint reduced (results : list analysis) : string :=
  match results with
  | [] => ""
  | a :: rest =>
      let summary :=
        "## Chunk " +:+ pretty (chunk_id_of a + 1)%nat +:+ PyStr.nl
          +:+ reduced_text (text_of a) in
      match rest with
      | [] => summary
      | _ :: _ => summary +:+ PyStr.nl +:+ PyStr.nl +:+ reduced rest
      end
  end.

(** ** Scenarios the statements are tried on *)

Module Scenario.

Definition file (name : string) (tokens : Z) : file_info :=
  FileInfo name ("/code/" +:+ name) tokens ("# " +:+ name).

Definition empty_world : world := World ∅ ∅ [].

(** An environment with budget 10, by backend, tokenizer and pool order. *)
Definition environment_of (ollama : nat → string → run_outcome)
    (count : string → Z) (order : list analysis → list analysis) : environment :=
  Environment "glm-4.7-flash:latest" "/code" "docs/CODEBASE_MAP.md" 10
    count ollama "2026-01-01 12:00:00" "2026-01-01T12:00:00.000000" order.

Definition one_token_per_character (text : string) : Z := PyStr.len text.

Definition in_submission_order (l : list analysis) : list analysis := l.
Definition last_submitted_first (l : list analysis) : list analysis := reverse l.

(** The backend is down: every call exits with status 1. *)
Definition backend_down : environment :=
  environment_of (λ _ _, Completed 1 "" "connection refused")
    one_token_per_character in_submission_order.

(** The first call succeeds, the second fails, later calls succeed. *)
Definition second_call_fails : environment :=
  environment_of
    (λ n _, if (n =? 1)%nat then Completed 1 "" "boom"
            else Completed 0 (" reply " +:+ pretty n +:+ PyStr.nl) "")
    one_token_per_character last_submitted_first.


(** The model answers every prompt with nothing. *)
Definition model_says_nothing : environment :=
  environment_of (λ _ _, Completed 0 "" "")
    one_token_per_character in_submission_order.

(** Fifty-one results of 2500 characters each, last chunk first: their
    summaries together have more than 100000 characters. *)
Fixpoint filler (n : nat) : string :=
  match n with O => "" | S n' => "x" +:+ filler n' end.

Definition long_results : list analysis :=
  reverse ((λ i, (i, filler 2500, false)) <$> seq 0 51).

(** Two files that do not fit one unit of budget 10. *)
Definition two_files : list file_info := [file "a.py" 7; file "b.py" 8].

End Scenario.

(** ** More Python text operations *)

Module PyText.

(** The character [\n]. *)
Definition newline : Ascii.ascii := Ascii.ascii_of_nat 10.

(** [p in s] on strings: [p] occurs in [s]. *)
Fixpoint is_in (p s : string) : bool :=
  String.prefix p s
  || match s with
     | EmptyString => false
     | String _ s' => is_in p s'
     end.

(** [str.lower] on one character (code points below 256): the letters
    [A-Z] and the capital letters of Latin-1, the multiplication sign
    (215) not being one. *)
Definition lower_char (c : Ascii.ascii) : Ascii.ascii :=
  let n := Ascii.nat_of_ascii c in
  if ((65 <=? n) && (n <=? 90)
      || (192 <=? n) && (n <=? 222) && negb (n =? 215))%nat
  then Ascii.ascii_of_nat (n + 32) else c.

(** [s.lower()] *)
Fixpoint lower (s : string) : string :=
  match s with
  | EmptyString => EmptyString
  | String c s' => String (lower_char c) (lower s')
  end.

(** [s.split(sep)] for a separator of one character. *)
Fixpoint split_on (sep : Ascii.ascii) (s : string) : list string :=
  match s with
  | EmptyString => [EmptyString]
  | String c s' =>
      if decide (c = sep) then EmptyString :: split_on sep s'
      else match split_on sep s' with
           | [] => [String c EmptyString]
           | field :: fields => String c field :: fields
           end
  end.

(** [s.split()]: the maximal runs of characters that are not white space.
    [word] is the run read so far. *)
Fixpoint split_go (word : string) (s : string) : list string :=
  match s with
  | EmptyString => if PyStr.is_empty word then [] else [word]
  | String c s' =>
      if PyStr.isspace c then
        if PyStr.is_empty word then split_go EmptyString s'
        else word :: split_go EmptyString s'
      else split_go (word +:+ String c EmptyString) s'
  end.

Definition split (s : string) : list string := split_go EmptyString s.

End PyText.

(** ** Results of calls that may raise *)

Inductive outcome (A : Type) :=
  | Returns (a : A)
  | Raises (exception : string).
Arguments Returns {A} a.
Arguments Raises {A} exception.

(** [l[0]] *)
Definition index_0 {A} (l : list A) : outcome A :=
  match l with
  | x :: _ => Returns x
  | [] => Raises "IndexError"
  end.

(** ** The tokenizer's exception

    [self.encoder.encode(text)] raises [ValueError] on a text that holds
    one of the encoding's special tokens; [encode_raises] tells on which
    texts it does. [count_tokens], [synthesize_map] and [run] above are
    the calls in which the tokenizer returns; here they are with the
    exception, which [synthesize_map] and [run] let through: the call
    stands outside any [try]. *)

Module Raising.
Section Raising.
Context (env : environment) (encode_raises : string → bool).

(** [self.count_tokens(text)] *)
Definition count_tokens (text : string) : M (outcome Z) :=
  if encode_raises text then
    log (CountTokens text);; mret (Raises "ValueError")
  else
    tokens ← count_tokens env text; mret (Returns tokens).

(** [synthesize_map(analyses)] *)
Definition synthesize_map (analyses : list analysis) : M (outcome string) :=
  let analyses := sort_analyses analyses in
  let combined_summaries := combined_summaries analyses in
  summary_tokens ← count_tokens combined_summaries;
  match summary_tokens with
  | Raises exception => mret (Raises exception)
  | Returns summary_tokens =>
      if summary_tokens >? 100000 then
        mret (Returns (_create_final_map env (combined_full analyses) false))
      else
        result ← ollama_run env (synthesis_prompt combined_summaries);
        match result with
        | Completed returncode stdout _ =>
            if returncode =? 0 then
              let synthesized := stdout in
              mret (Returns (_create_final_map env synthesized true))
            else
              mret (Returns (_create_final_map env (combined_full analyses) false))
        | TimeoutExpired =>
            mret (Returns (_create_final_map env (combined_full analyses) false))
        | Raised _ =>
            mret (Returns (_create_final_map env (combined_full analyses) false))
        end
  end.

(** [run()], from the result [files] of [scan_codebase] on. *)
Definition run (files : list file_info) : M (outcome (option string)) :=
  match files with
  | [] => mret (Returns None)
  | _ :: _ =>
      let '(chunks, files) :=
        Packer.create_chunks (max_tokens_per_chunk env) files in
      analyses ← analyze_chunks env chunks;
      let errors := failed_ids analyses in
      let successful_chunks := successful_ids analyses in
      match successful_chunks with
      | [] => mret (Returns None)
      | _ :: _ =>
          final_map ← synthesize_map analyses;
          match final_map with
          | Raises exception => mret (Raises exception)
          | Returns final_map =>
              output_write map_file final_map;;
              output_write timestamp_file (now_isoformat env);;
              for_each clean_cache successful_chunks;;
              mret (Returns (Some (output_path env)))
          end
      end
  end.

End Raising.
End Raising.

(** ** [should_ignore] and [scan_codebase] *)

(** [should_ignore(path)], on [path_str = str(path)], with
    [ignore_patterns = config["ignore_patterns"]]. *)
Definition should_ignore (ignore_patterns : list string) (path_str : string) : bool :=
  existsb (λ pattern, PyText.is_in pattern path_str) ignore_patterns.

(** One path yielded by [codebase_path.rglob('*')]: [str(file_path)],
    [str(file_path.relative_to(codebase_path))], [file_path.is_file()],
    and what [file_path.read_text(...)] gives, [None] when it raises. *)
Record dir_entry := DirEntry {
  entry_path : string;
  entry_relative_path : string;
  entry_is_file : bool;
  entry_read_text : option string
}.

(** The variables of the loop of [scan_codebase]. *)
Record scan := Scan {
  scan_files : list file_info;
  scan_total_tokens : Z;
  scan_skipped : Z
}.

Section Scanner.
Context (env : environment) (encode_raises : string → bool)
  (ignore_patterns : list string).

(** One iteration of [for file_path in self.codebase_path.rglob('*')].
    The body of the [try] is the read and the token count: the file is
    skipped when either raises. *)
Definition scan_entry (s : scan) (file_path : dir_entry) : M scan :=
  if negb (entry_is_file file_path)
     || should_ignore ignore_patterns (entry_path file_path)
  then mret (Scan (scan_files s) (scan_total_tokens s) (scan_skipped s + 1))
  else
    match entry_read_text file_path with
    | Some content =>
        tokens ← Raising.count_tokens env encode_raises content;
        match tokens with
        | Returns tokens =>
            mret (Scan
                    (scan_files s
                       ++ [FileInfo (entry_relative_path file_path)
                             (entry_path file_path) tokens content])
                    (scan_total_tokens s + tokens)
                    (scan_skipped s))
        | Raises _ =>
            mret (Scan (scan_files s) (scan_total_tokens s) (scan_skipped s + 1))
        end
    | None =>
        mret (Scan (scan_files s) (scan_total_tokens s) (scan_skipped s + 1))
    end.

Fixpoint scan_loop (entries : list dir_entry) (s : scan) : M scan :=
  match entries with
  | [] => mret s
  | file_path :: entries' => s' ← scan_entry s file_path; scan_loop entries' s'
  end.

(** [scan_codebase()], on the paths under the codebase; it returns
    [(files, total_tokens)]. *)
Definition scan_codebase (entries : list dir_entry) : M (list file_info * Z) :=
  s ← scan_loop entries (Scan [] 0 0);
  mret (scan_files s, scan_total_tokens s).

(** [run()] whole: the scan, then the pipeline on what it found. *)
Definition run_codebase (entries : list dir_entry)
    : M (outcome (option string)) :=
  scanned ← scan_codebase entries;
  Raising.run env encode_raises scanned.1.

End Scanner.

(** ** [_check_ollama] *)

(** What [subprocess.run(["ollama", "list"], capture_output=True,
    text=True, timeout=5)] can do. *)
Inductive list_outcome :=
  | Listed (returncode : Z) (stdout : string)
  | ListTimeoutExpired
  | ListFileNotFoundError
  | ListRaised (exception : string).

Definition priority : list string :=
  ["glm-4.7-flash"; "qwen2.5-coder"; "llama3.1"; "mistral"].

(** [for line in lines: ...] for one [preferred]: the model name it
    returns, if any. *)
Fixpoint first_match (preferred : string) (lines : list string)
    : outcome (option string) :=
  match lines with
  | [] => Returns None
  | line :: lines' =>
      if PyStr.is_empty (PyStr.strip line) then first_match preferred lines'
      else
        match index_0 (PyText.split line) with
        | Raises e => Raises e
        | Returns model_name =>
            if PyText.is_in preferred (PyText.lower model_name)
            then Returns (Some model_name)
            else first_match preferred lines'
        end
  end.

(** [for preferred in priority: ...] *)
Fixpoint first_preferred (priority : list string) (lines : list string)
    : outcome (option string) :=
  match priority with
  | [] => Returns None
  | preferred :: priority' =>
      match first_match preferred lines with
      | Raises e => Raises e
      | Returns (Some model_name) => Returns (Some model_name)
      | Returns None => first_preferred priority' lines
      end
  end.

(** The choice among the lines under the header. *)
Definition select_model (lines : list string) : outcome (option string) :=
  match lines with
  | [] => Returns None
  | first_line :: _ =>
      match first_preferred priority lines with
      | Raises e => Raises e
      | Returns (Some model_name) => Returns (Some model_name)
      | Returns None =>
          match index_0 (PyText.split first_line) with
          | Raises e => Raises e
          | Returns model_name => Returns (Some model_name)
          end
      end
  end.

Definition _check_ollama (result : list_outcome) : outcome (option string) :=
  match result with
  | Listed returncode stdout =>
      if negb (returncode =? 0) then Returns None
      else select_model (tail (PyText.split_on PyText.newline (PyStr.strip stdout)))
  | ListTimeoutExpired => Returns None
  | ListFileNotFoundError => Returns None
  | ListRaised e => Raises e
  end.

(** A text made of white space only. *)
Fixpoint all_space (s : string) : bool :=
  match s with
  | EmptyString => true
  | String c s' => PyStr.isspace c && all_space s'
  end.

(** The text the scan reads at a path: that of a regular file that is
    not ignored and can be read. *)
Definition read_at (ignore_patterns : list string) (file_path : dir_entry)
    : option string :=
  if entry_is_file file_path
     && negb (should_ignore ignore_patterns (entry_path file_path))
  then entry_read_text file_path
  else None.

(** The file a path gives, if it gives one: its text was read and the
    tokenizer returned on it. *)
Definition scanned_file (env : environment) (encode_raises : string → bool)
    (ignore_patterns : list string) (file_path : dir_entry)
    : option file_info :=
  content ← read_at ignore_patterns file_path;
  if encode_raises content then None
  else Some (FileInfo (entry_relative_path file_path) (entry_path file_path)
               (count_tokens_of env content) content).

(** The lines of the listing under its header. *)
Definition listed_lines (stdout : string) : list string :=
  tail (PyText.split_on PyText.newline (PyStr.strip stdout)).

(** [line] lists a model whose name matches [preferred]. *)
Definition lists_match (preferred line : string) : Prop :=
  ∃ model_name,
    head (PyText.split line) = Some model_name
    ∧ PyText.is_in preferred (PyText.lower model_name) = true.

(** ** Vocabulary of the packer's further properties *)

(** A unit made of one file that is over the budget by itself. *)
Definition oversized_unit (max_tokens : Z) (c : chunk) : Prop :=
  ∃ f, c = [f] ∧ max_tokens < tokens f.

(** [c2] was opened only when its first file no longer fitted [c1]. *)
Definition closed_late (max_tokens : Z) (c1 c2 : chunk) : Prop :=
  oversized_unit max_tokens c1 ∨ oversized_unit max_tokens c2
  ∨ ∀ g, head c2 = Some g → max_tokens < total_tokens c1 + tokens g.

(** Every unit and the one after it are in that relation. *)
Fixpoint tight (max_tokens : Z) (l : list chunk) : Prop :=
  match l with
  | c1 :: l' =>
      match l' with
      | c2 :: _ => closed_late max_tokens c1 c2 ∧ tight max_tokens l'
      | [] => True
      end
  | [] => True
  end.

(** Invariant of the walk: a file over the budget is never put with
    another file. *)
Definition isolating (max_tokens : Z) (w : Packer.walk) : Prop :=
  Forall (λ c, Forall (λ f, tokens f ≤ max_tokens) c ∨ oversized_unit max_tokens c)
    (Packer.chunks w)
  ∧ Forall (λ f, tokens f ≤ max_tokens) (Packer.current_chunk w).

(** [env] with another completion order of the pool. *)
Definition with_order (env : environment)
    (order : list analysis → list analysis) : environment :=
  Environment (model env) (codebase_path env) (output_path env)
    (max_tokens_per_chunk env) (count_tokens_of env) (ollama env)
    (now_strftime env) (now_isoformat env) order.

(** ** More scenarios *)

Module Scenes.

(** A world in which chunk 0 failed before: its cache file holds an error
    text. *)
Definition failed_before : world :=
  World {[ "chunk_000.md" := "ERROR: Analysis timed out (>5 min)" ]} ∅ [].

(** What [ollama list] prints with two models installed. *)
Definition listing : string :=
  PyStr.lines [
    "NAME                 ID              SIZE      MODIFIED";
    "mistral:7b           f974a74358d6    4.1 GB    3 weeks ago";
    "Qwen2.5-Coder:14b    3028237cc8c5    9.0 GB    2 days ago";
    ""
  ].

(** The tokenizer raises on a text that holds the end-of-text token, and
    on no other. *)
Definition special_token (text : string) : bool :=
  PyText.is_in "<|endoftext|>" text.

(** The model's reply to every prompt holds the end-of-text token. *)
Definition model_says_token : environment :=
  Scenario.environment_of (λ _ _, Completed 0 "done <|endoftext|>" "")
    Scenario.one_token_per_character Scenario.in_submission_order.

End Scenes.

(** * Properties *)

(** ** The stable sort *)

Section sort_facts.
Context {A : Type} (key : A → Z) (reverse : bool).

Local Abbreviation before := (PySort.before key reverse).
Local Abbreviation insert := (PySort.insert key reverse).
Local Abbreviation sort := (PySort.sort key reverse).
Local Abbreviation order := (PySort.key_order key reverse).

Lemma before_true x y : before x y = true ↔ order x y.
Proof.
  unfold PySort.before, PySort.key_order.
  destruct reverse; apply Z.leb_le.
Qed.

Lemma before_false x y : before x y = false → order y x ∧ key x ≠ key y.
Proof.
  unfold PySort.before, PySort.key_order.
  destruct reverse; intros H%Z.leb_gt; lia.
Qed.

Lemma order_trans x y z : order x y → order y z → order x z.
Proof. unfold PySort.key_order. destruct reverse; lia. Qed.

Lemma insert_perm x l : insert x l ≡ₚ x :: l.
Proof.
  induction l as [|y l IH]; simpl; [done|].
  destruct (before x y); [done|].
  rewrite IH. apply Permutation_swap.
Qed.

Lemma sort_perm l : sort l ≡ₚ l.
Proof.
  induction l as [|x l IH]; simpl; [done|].
  by rewrite insert_perm, IH.
Qed.

Lemma insert_sorted x l :
  StronglySorted order l → StronglySorted order (insert x l).
Proof.
  induction 1 as [|y l Hl IH Hy]; simpl.
  { repeat constructor. }
  destruct (before x y) eqn:Hxy.
  - apply before_true in Hxy.
    constructor; [by constructor|].
    constructor; [done|].
    eapply Forall_impl; [exact Hy|]. intros z Hz. by eapply order_trans.
  - apply before_false in Hxy as [Hyx _].
    constructor; [done|].
    rewrite insert_perm. by constructor.
Qed.

Lemma sort_sorted l : StronglySorted order (sort l).
Proof.
  induction l as [|x l IH]; simpl; [constructor|]. by apply insert_sorted.
Qed.

(** A list that is in order already is left as it is. *)
Lemma sort_fixed l : StronglySorted order l → sort l = l.
Proof.
  induction 1 as [|x l Hl IH Hx]; simpl; [done|].
  rewrite IH. destruct Hx as [|y l Hxy _]; simpl; [done|].
  apply before_true in Hxy. by rewrite Hxy.
Qed.

Lemma sort_fixed_iff l : sort l = l ↔ StronglySorted order l.
Proof.
  split; [|apply sort_fixed]. intros <-. apply sort_sorted.
Qed.

Lemma filter_insert_key k x l :
  filter (λ y, key y = k) (insert x l)
  = if decide (key x = k) then x :: filter (λ y, key y = k) l
    else filter (λ y, key y = k) l.
Proof.
  induction l as [|y l IH]; simpl.
  { rewrite filter_cons, filter_nil. by destruct (decide (key x = k)). }
  destruct (before x y) eqn:Hxy.
  { rewrite filter_cons. by destruct (decide (key x = k)). }
  apply before_false in Hxy as [_ Hne].
  rewrite !(filter_cons _ y), IH.
  destruct (decide (key x = k)), (decide (key y = k)); congruence.
Qed.

(** Stability: the items of any one key come out in the order they
    went in. *)
Lemma sort_stable k l :
  filter (λ y, key y = k) (sort l) = filter (λ y, key y = k) l.
Proof.
  induction l as [|x l IH]; simpl; [done|].
  rewrite filter_insert_key, filter_cons, IH.
  by destruct (decide (key x = k)).
Qed.
End sort_facts.

(** ** The packer *)

Section packer_facts.
Import Packer.
Context (max_tokens : Z).

Lemma total_tokens_app c1 c2 :
  total_tokens (c1 ++ c2) = total_tokens c1 + total_tokens c2.
Proof.
  unfold total_tokens. induction c1 as [|f c1 IH]; simpl; [done|].
  rewrite IH. lia.
Qed.

Lemma total_tokens_singleton f : total_tokens [f] = tokens f.
Proof. unfold total_tokens. simpl. lia. Qed.

Lemma step_ok w f : walk_ok max_tokens w → walk_ok max_tokens (step max_tokens w f).
Proof.
  intros [Hc Hn Ht Hf]. unfold step.
  destruct (Z.gtb_spec (tokens f) max_tokens) as [Hbig|Hsmall].
  { split; cbn [chunks current_chunk current_tokens]; [| |done..].
    - apply Forall_app; split; [done|].
      constructor; [|done]. right. eauto.
    - apply Forall_app; split; [done|]. by constructor. }
  destruct (Z.gtb_spec (current_tokens w + tokens f) max_tokens) as [Hfull|Hroom].
  - assert (current_chunk w ≠ []) as Hne.
    { intros Hnil. rewrite Ht, Hnil in Hfull. simpl in Hfull. lia. }
    split; cbn [chunks current_chunk current_tokens].
    + apply Forall_app; split; [done|]. constructor; [|done].
      left. by destruct Hf.
    + apply Forall_app; split; [done|]. by constructor.
    + by rewrite total_tokens_singleton.
    + right. rewrite total_tokens_singleton. lia.
  - split; cbn [chunks current_chunk current_tokens]; [done..| |].
    + rewrite total_tokens_app, total_tokens_singleton. by rewrite Ht.
    + right. rewrite total_tokens_app, total_tokens_singleton.
      rewrite <-Ht. lia.
Qed.

Lemma loop_ok files w : walk_ok max_tokens w → walk_ok max_tokens (loop max_tokens files w).
Proof.
  unfold loop. revert w.
  induction files as [|f files IH]; intros w Hw; simpl; [done|].
  by apply IH, step_ok.
Qed.

Lemma start_ok : walk_ok max_tokens (Walk [] [] 0).
Proof. split; simpl; auto. Qed.

Lemma finish_ok w : walk_ok max_tokens w → Forall (unit_ok max_tokens) (finish w).
Proof.
  intros [Hc _ _ Hf]. unfold finish.
  destruct (current_chunk w) as [|f c] eqn:Hcur; [done|].
  apply Forall_app; split; [done|]. constructor; [|done].
  left. by destruct Hf.
Qed.

Lemma finish_nonempty w : walk_ok max_tokens w → Forall (λ c, c ≠ []) (finish w).
Proof.
  intros [_ Hn _ _]. unfold finish.
  destruct (current_chunk w) as [|f c] eqn:Hcur; [done|].
  apply Forall_app; split; [done|]. by constructor.
Qed.

Lemma step_files w f : walk_files (step max_tokens w f) ≡ₚ walk_files w ++ [f].
Proof.
  unfold step, walk_files.
  destruct (tokens f >? max_tokens); simpl.
  { rewrite concat_app. simpl. rewrite <-!(assoc_L (++)).
    f_equiv. apply Permutation_app_comm. }
  destruct (current_tokens w + tokens f >? max_tokens); simpl.
  - rewrite concat_app. simpl. by rewrite (right_id_L [] (++)).
  - by rewrite (assoc_L (++)).
Qed.

Lemma loop_files files w :
  walk_files (loop max_tokens files w) ≡ₚ walk_files w ++ files.
Proof.
  unfold loop. revert w.
  induction files as [|f files IH]; intros w; simpl.
  { by rewrite (right_id_L [] (++)). }
  rewrite IH, step_files. by rewrite <-(assoc_L (++)).
Qed.

Lemma finish_files w : concat (finish w) = walk_files w.
Proof.
  unfold finish, walk_files.
  destruct (current_chunk w) as [|f c]; simpl.
  - by rewrite (right_id_L [] (++)).
  - rewrite concat_app. simpl. by rewrite (right_id_L [] (++)).
Qed.
End packer_facts.

(** C3. Every unit the packer produces is within the budget, unless it is
    a singleton whose one file already exceeds the budget: for every list
    of files and every budget. *)
Theorem create_chunks_budget (max_tokens : Z) (files : list file_info) :
  Forall (λ c, total_tokens c ≤ max_tokens
               ∨ ∃ f, c = [f] ∧ tokens f > max_tokens)
         (Packer.create_chunks max_tokens files).1.
Proof.
  unfold Packer.create_chunks. cbn [fst].
  eapply Forall_impl.
  - apply finish_ok, loop_ok, start_ok.
  - intros c [Hfits|(f & -> & Hbig)]; [by left|].
    right. exists f. split; [done|lia].
Qed.

(** C4. The files of the units, taken together, are the input files, each
    as often as in the input: nothing is lost and nothing is duplicated. *)
Theorem create_chunks_partition (max_tokens : Z) (files : list file_info) :
  concat (Packer.create_chunks max_tokens files).1 ≡ₚ files.
Proof.
  unfold Packer.create_chunks. simpl.
  rewrite finish_files, loop_files. unfold walk_files. simpl.
  apply sort_perm.
Qed.

(** C8. Five files of 1000 tokens each and a budget of 2500 give three
    units of 2, 2 and 1 files; files of equal size keep their input order
    through the descending sort. *)
Theorem create_chunks_scenario_A (files : list file_info) :
  length files = 5%nat →
  Forall (λ f, tokens f = 1000) files →
  ∃ a b c d e,
    files = [a; b; c; d; e]
    ∧ Packer.sort_files files = [a; b; c; d; e]
    ∧ (Packer.create_chunks 2500 files).1 = [[a; b]; [c; d]; [e]]
    ∧ length <$> (Packer.create_chunks 2500 files).1 = [2; 2; 1]%nat.
Proof.
  intros Hlen Hall.
  destruct files as [|a [|b [|c [|d [|e [|? ?]]]]]]; try discriminate Hlen.
  exists a, b, c, d, e.
  assert (Packer.sort_files [a; b; c; d; e] = [a; b; c; d; e]) as Hsort.
  { apply sort_fixed.
    repeat match goal with
           | H : Forall _ (_ :: _) |- _ => apply Forall_cons in H as [? H]
           end.
    repeat (constructor; [|repeat constructor; unfold PySort.key_order; lia]).
    constructor. }
  split; [done|]. split; [done|].
  unfold Packer.create_chunks. rewrite Hsort.
  repeat match goal with
         | H : Forall _ (_ :: _) |- _ => apply Forall_cons in H as [? H]
         end.
  unfold Packer.loop, Packer.step. cbn [foldl fst Packer.chunks
    Packer.current_chunk Packer.current_tokens].
  repeat match goal with H : tokens _ = 1000 |- _ => rewrite !H; clear H end.
  by vm_compute.
Qed.

Lemma create_chunks_scenario_A_witness :
  let f p := FileInfo p p 1000 "x" in
  (Packer.create_chunks 2500 [f "a"; f "b"; f "c"; f "d"; f "e"]).1
  = [[f "a"; f "b"]; [f "c"; f "d"]; [f "e"]].
Proof.
  intros f.
  destruct (create_chunks_scenario_A [f "a"; f "b"; f "c"; f "d"; f "e"])
    as (a & b & c & d & e & Hl & _ & Hc & _).
  - reflexivity.
  - repeat constructor.
  - injection Hl as <- <- <- <- <-. exact Hc.
Defined.

(** C9. [create_chunks] sorts the list it is given in place: after the
    call the caller's list holds the files by descending token count (the
    same files, other lists untouched), and unless it was in that order
    already it no longer holds them in scan order. *)
Theorem create_chunks_sorts_in_place (max_tokens : Z) (files : Packer.loc)
    (store : gmap Packer.loc (list file_info)) (l : list file_info) :
  store !! files = Some l →
  ∃ chunks store',
    Packer.create_chunks_ref max_tokens files store = Some (chunks, store')
    ∧ chunks = (Packer.create_chunks max_tokens l).1
    ∧ store' !! files = Some (Packer.sort_files l)
    ∧ StronglySorted (λ x y, tokens y ≤ tokens x) (Packer.sort_files l)
    ∧ Packer.sort_files l ≡ₚ l
    ∧ (∀ other, other ≠ files → store' !! other = store !! other)
    ∧ (¬ StronglySorted (λ x y, tokens y ≤ tokens x) l →
       store' !! files ≠ Some l).
Proof.
  intros Hl. unfold Packer.create_chunks_ref. rewrite Hl.
  unfold Packer.create_chunks. cbn zeta.
  eexists _, _. split; [reflexivity|]. split; [reflexivity|].
  split; [by rewrite lookup_insert_eq|].
  split; [apply (sort_sorted tokens true)|].
  split; [apply sort_perm|].
  split; [intros other Hne; by rewrite lookup_insert_ne|].
  intros Hunsorted. rewrite lookup_insert_eq. intros [= Hfix].
  apply Hunsorted. by apply (sort_fixed_iff tokens true).
Qed.

Lemma create_chunks_sorts_in_place_witness :
  let small := FileInfo "a.py" "/code/a.py" 10 "x" in
  let large := FileInfo "b.py" "/code/b.py" 20 "y" in
  ∃ chunks store',
    Packer.create_chunks_ref 100 0%nat {[ 0%nat := [small; large] ]}
      = Some (chunks, store')
    ∧ store' !! 0%nat = Some [large; small].
Proof.
  intros small large.
  destruct (create_chunks_sorts_in_place 100 0%nat
              {[ 0%nat := [small; large] ]} [small; large])
    as (chunks & store' & Hrun & _ & Hfiles & _).
  - apply lookup_singleton_eq.
  - exists chunks, store'. split; [exact Hrun|exact Hfiles].
Defined.

(** ** Text *)

Lemma string_app_nil_l (t : string) : "" +:+ t = t.
Proof. reflexivity. Qed.

Lemma string_app_cons (c : Ascii.ascii) (s t : string) :
  String c s +:+ t = String c (s +:+ t).
Proof. reflexivity. Qed.

Lemma string_app_nil_r (s : string) : s +:+ "" = s.
Proof.
  induction s as [|c s IH]; [done|]. by rewrite string_app_cons, IH.
Qed.

Lemma string_app_assoc (s t u : string) : (s +:+ t) +:+ u = s +:+ t +:+ u.
Proof.
  induction s as [|c s IH]; [done|]. by rewrite !string_app_cons, IH.
Qed.

Lemma string_length_app (s t : string) :
  String.length (s +:+ t) = (String.length s + String.length t)%nat.
Proof.
  induction s as [|c s IH]; [done|]. rewrite string_app_cons. simpl. by rewrite IH.
Qed.

Lemma substring_0_all (n : nat) (s : string) :
  (String.length s ≤ n)%nat → String.substring 0 n s = s.
Proof.
  revert s. induction n as [|n IH]; intros [|c s] Hlen; simpl in *; try done; [lia|].
  rewrite IH; [done|lia].
Qed.

(** ** Cache file names *)

Lemma pretty_N_go_length (x : N) (s : string) :
  (String.length s ≤ String.length (pretty_N_go x s))%nat.
Proof.
  revert s. induction (N.lt_wf_0 x) as [x _ IH]; intros s.
  destruct (decide (x = 0)%N) as [->|Hx]; [by rewrite pretty_N_go_0|].
  rewrite pretty_N_go_step by lia.
  etrans; [|apply IH, N.div_lt; lia]. simpl. lia.
Qed.

Lemma pretty_nat_length_4 (n : nat) :
  (1000 ≤ n)%nat → (4 ≤ String.length (pretty n))%nat.
Proof.
  intros Hn. unfold pretty, pretty_nat, pretty, pretty_N.
  set (x := N.of_nat n). assert (1000 ≤ x)%N as Hx by lia. clearbody x.
  destruct (decide (x = 0)%N) as [->|_]; [lia|].
  assert (100 ≤ x `div` 10)%N as H1 by (apply N.div_le_lower_bound; lia).
  assert (10 ≤ (x `div` 10) `div` 10)%N as H2 by (apply N.div_le_lower_bound; lia).
  assert (1 ≤ ((x `div` 10) `div` 10) `div` 10)%N as H3
    by (apply N.div_le_lower_bound; lia).
  rewrite 4!pretty_N_go_step by lia.
  etrans; [|apply pretty_N_go_length]. simpl. lia.
Qed.

Lemma format_03d_large (n : nat) :
  (1000 ≤ n)%nat → PyStr.format_03d n = pretty n.
Proof.
  intros Hn%pretty_nat_length_4. unfold PyStr.format_03d.
  by destruct (String.length (pretty n)) as [|[|[|?]]]; [lia..|].
Qed.

Lemma format_03d_small_NoDup :
  NoDup (PyStr.format_03d <$> seq 0 1000).
Proof. by apply (bool_decide_unpack _); vm_compute. Qed.

Lemma format_03d_small_length :
  Forall (λ n, String.length (PyStr.format_03d n) = 3%nat) (seq 0 1000).
Proof. by apply (bool_decide_unpack _); vm_compute. Qed.

Lemma format_03d_inj : Inj (=) (=) PyStr.format_03d.
Proof.
  assert (∀ a b, (a < 1000 ≤ b)%nat → PyStr.format_03d a ≠ PyStr.format_03d b)
    as Hmixed.
  { intros a b [Ha Hb] Heq.
    pose proof format_03d_small_length as Hlen.
    rewrite Forall_forall in Hlen. specialize (Hlen a).
    rewrite Heq, format_03d_large in Hlen by done.
    apply pretty_nat_length_4 in Hb.
    rewrite Hlen in Hb; [lia|]. apply elem_of_seq. lia. }
  intros a b Heq.
  destruct (decide (a < 1000)%nat) as [Ha|Ha], (decide (b < 1000)%nat) as [Hb|Hb].
  - eapply (NoDup_lookup _ a b); [apply format_03d_small_NoDup|..].
    + rewrite list_lookup_fmap, lookup_seq_lt by done. simpl. by rewrite Heq.
    + by rewrite list_lookup_fmap, lookup_seq_lt by done.
  - destruct (Hmixed a b); [lia|done].
  - destruct (Hmixed b a); [lia|done].
  - rewrite !format_03d_large in Heq by lia. by apply (inj pretty).
Qed.

Lemma string_app_inj_r (s1 s2 t : string) : s1 +:+ t = s2 +:+ t → s1 = s2.
Proof.
  intros Heq.
  assert (String.length s1 = String.length s2) as Hlen.
  { apply (f_equal String.length) in Heq.
    rewrite !string_length_app in Heq. lia. }
  revert s2 Heq Hlen. induction s1 as [|c s1 IH]; intros [|c' s2] Heq Hlen;
    simplify_eq/=; [done|]. f_equal. by apply IH.
Qed.

Lemma cache_file_inj : Inj (=) (=) cache_file.
Proof.
  intros a b Heq. unfold cache_file in Heq.
  apply (inj (String.app _)), string_app_inj_r in Heq.
  by apply format_03d_inj.
Qed.

(** ** Effects of one dispatch *)

Lemma is_error_marker (i : nat) (msg : string) (fc : bool) :
  is_error (i, "ERROR:" +:+ msg, fc) = true.
Proof. by destruct msg. Qed.

Section dispatch_facts.
Context (env : environment).

Lemma analyze_chunk_hit (i : nat) (c : chunk) (w : world) (text : string) :
  cache_dir w !! cache_file i = Some text →
  analyze_chunk env i c w = ((i, text, true), w).
Proof.
  intros Hhit. unfold analyze_chunk, cache_lookup, mbind, M_bind. by rewrite Hhit.
Qed.

Lemma analyze_chunk_miss (i : nat) (c : chunk) (w : world) :
  cache_dir w !! cache_file i = None →
  analyze_chunk env i c w =
    let w' := called (analysis_prompt c) w in
    match ollama env (length (backend_calls w)) (analysis_prompt c) with
    | Completed returncode stdout stderr =>
        if returncode =? 0 then
          if PyStr.is_empty (PyStr.strip stdout) then
            ((i, "ERROR: Ollama returned empty response", false), w')
          else
            ((i, PyStr.strip stdout, false),
             World (<[cache_file i := PyStr.strip stdout]> (cache_dir w'))
                   (output_dir w') (trace w'))
        else ((i, "ERROR: Ollama failed - " +:+ stderr, false), w')
    | TimeoutExpired => ((i, "ERROR: Analysis timed out (>5 min)", false), w')
    | Raised e => ((i, "ERROR: " +:+ e, false), w')
    end.
Proof.
  intros Hmiss.
  unfold analyze_chunk, cache_lookup, ollama_run, cache_write, mbind, M_bind, mret, M_ret.
  rewrite Hmiss. cbn zeta.
  destruct (ollama env _ _) as [rc out err| |e]; [|done..].
  destruct (rc =? 0); [|done].
  by destruct (PyStr.is_empty _).
Qed.

End dispatch_facts.

Section dispatch_all_facts.
Context (env : environment).

Lemma backend_calls_trace_app (w : world) (cache out : gmap string string)
    (es : list event) :
  backend_calls (World cache out (trace w ++ es))
  = backend_calls w
    ++ omap (λ e, match e with OllamaRun p => Some p | CountTokens _ => None end) es.
Proof. unfold backend_calls. simpl. apply omap_app. Qed.

Lemma enumerate_from_cons {A} (start : nat) (x : A) (l : list A) :
  enumerate_from start (x :: l) = (start, x) :: enumerate_from (S start) l.
Proof. reflexivity. Qed.

Lemma enumerate_from_lookup {A} (start i : nat) (x : A) (l : list A) :
  l !! i = Some x → ((start + i)%nat, x) ∈ enumerate_from start l.
Proof.
  revert start i. induction l as [|y l IH]; intros start [|i] Hi; simplify_eq/=.
  - rewrite enumerate_from_cons, Nat.add_0_r. apply list_elem_of_here.
  - rewrite enumerate_from_cons. apply list_elem_of_further.
    replace (start + S i)%nat with (S start + i)%nat by lia. by apply IH.
Qed.

(** What one dispatch does to the world. *)
Lemma analyze_chunk_effect (i : nat) (c : chunk) (w : world) :
  ∃ a w',
    analyze_chunk env i c w = (a, w')
    ∧ chunk_id_of a = i
    ∧ output_dir w' = output_dir w
    ∧ trace w' = trace w
        ++ (if decide (uncached w (i, c)) then [OllamaRun (analysis_prompt c)] else [])
    ∧ (cache_dir w' = cache_dir w
       ∨ cache_dir w !! cache_file i = None
         ∧ cache_dir w' = <[cache_file i := text_of a]> (cache_dir w)
         ∧ from_cache_of a = false)
    ∧ (∀ text, cache_dir w !! cache_file i = Some text → a = (i, text, true)).
Proof.
  destruct (cache_dir w !! cache_file i) as [text|] eqn:Hc.
  - rewrite (analyze_chunk_hit env i c w text Hc).
    eexists _, _. split; [done|]. split; [done|]. split; [done|].
    split; [|split; [by left|by intros ? [= <-]]].
    rewrite decide_False; [by rewrite app_nil_r|].
    unfold uncached. simpl. by rewrite Hc.
  - rewrite (analyze_chunk_miss env i c w Hc). cbn zeta.
    assert (decide (uncached w (i, c)) = left Hc) as ->.
    { destruct (decide _) as [H|[]]; [|done]. f_equal. apply proof_irrel. }
    destruct (ollama env _ _) as [rc out err| |e];
      [|eexists _, _; do 4 (split; [done|]); split; [by left|done]..].
    destruct (rc =? 0);
      [|eexists _, _; do 4 (split; [done|]); split; [by left|done]].
    destruct (PyStr.is_empty _);
      eexists _, _; do 4 (split; [done|]); (split; [|done]); [by left|by right].
Qed.

Lemma filter_uncached_frame (w w' : world) (n start : nat) (cs : list chunk) :
  (∀ j, (n ≤ j)%nat → cache_dir w' !! cache_file j = cache_dir w !! cache_file j) →
  (n ≤ start)%nat →
  filter (uncached w') (enumerate_from start cs)
  = filter (uncached w) (enumerate_from start cs).
Proof.
  intros Hframe. revert start.
  induction cs as [|c cs IH]; intros start Hn; [done|].
  rewrite enumerate_from_cons, !filter_cons, IH by lia.
  assert (uncached w' (start, c) ↔ uncached w (start, c)) as Hiff.
  { unfold uncached. simpl. by rewrite (Hframe start Hn). }
  destruct (decide (uncached w' (start, c))), (decide (uncached w (start, c)));
    tauto.
Qed.

(** What the dispatch of all chunks does to the world: the backend is
    called for the chunks without a cache file and for no other, in
    submission order; cache files are added, never removed or changed. *)
Lemma for_enumerate_analyze (start : nat) (chunks : list chunk) (w : world) :
  ∃ rs w',
    for_enumerate (analyze_chunk env) start chunks w = (rs, w')
    ∧ chunk_id_of <$> rs = seq start (length chunks)
    ∧ output_dir w' = output_dir w
    ∧ trace w' = trace w ++ (OllamaRun <$> uncached_prompts w start chunks)
    ∧ (∀ k v, cache_dir w !! k = Some v → cache_dir w' !! k = Some v)
    ∧ (∀ k v, cache_dir w' !! k = Some v →
         cache_dir w !! k = Some v
         ∨ ∃ a, a ∈ rs ∧ k = cache_file (chunk_id_of a) ∧ v = text_of a
                ∧ from_cache_of a = false)
    ∧ (∀ a text, a ∈ rs → cache_dir w !! cache_file (chunk_id_of a) = Some text →
         a = (chunk_id_of a, text, true)).
Proof.
  revert start w. induction chunks as [|c chunks IH]; intros start w.
  { exists [], w. do 3 (split; [done|]).
    split; [unfold uncached_prompts; simpl; by rewrite app_nil_r|].
    do 2 (split; [by auto|]). by intros ?? ?%elem_of_nil. }
  destruct (analyze_chunk_effect start c w)
    as (a & w1 & Hstep & Hid & Hout1 & Htr1 & Hcache1 & Hhit1).
  destruct (IH (S start) w1)
    as (rs & w2 & Hrest & Hids & Hout2 & Htr2 & Hkeep & Hnew & Hhit).
  exists (a :: rs), w2.
  split.
  { simpl. unfold mbind, M_bind. rewrite Hstep. cbn zeta.
    unfold mbind, M_bind in Hrest |- *. by rewrite Hrest. }
  assert (∀ j, (S start ≤ j)%nat →
            cache_dir w1 !! cache_file j = cache_dir w !! cache_file j) as Hframe.
  { intros j Hj. destruct Hcache1 as [->|(_ & -> & _)]; [done|].
    rewrite lookup_insert_ne; [done|].
    intros Heq%cache_file_inj. lia. }
  split; [by rewrite fmap_cons, Hid, Hids|].
  split; [congruence|].
  split.
  { rewrite Htr2, Htr1, <-(assoc_L (++)). f_equal.
    unfold uncached_prompts. rewrite enumerate_from_cons, filter_cons.
    rewrite (filter_uncached_frame w w1 (S start)) by done.
    by destruct (decide (uncached w (start, c))). }
  assert (∀ k v, cache_dir w !! k = Some v → cache_dir w1 !! k = Some v) as Hkeep1.
  { intros k v Hk. destruct Hcache1 as [->|(Hnone & -> & _)]; [done|].
    rewrite lookup_insert_ne; [done|]. intros <-. congruence. }
  split; [by auto|].
  split.
  { intros k v Hk. destruct (Hnew k v Hk) as [Hk1|(b & Hb & ? & ? & ?)].
    - destruct Hcache1 as [Heq|(Hnone & Heq & Hfc)]; rewrite Heq in Hk1; [by left|].
      destruct (decide (k = cache_file start)) as [->|Hne].
      + rewrite lookup_insert_eq in Hk1. injection Hk1 as <-.
        right. exists a. rewrite Hid. split; [apply list_elem_of_here|done].
      + rewrite lookup_insert_ne in Hk1 by done. by left.
    - right. exists b. split; [by apply list_elem_of_further|done]. }
  intros b text [->|Hb]%elem_of_cons Hcached.
  - rewrite Hid in Hcached |- *. by apply Hhit1.
  - by apply Hhit, Hkeep1.
Qed.

End dispatch_all_facts.

Section run_facts.
Context (env : environment).

Lemma synthesize_map_over_ceiling (analyses : list analysis) (w : world) :
  let sorted := sort_analyses analyses in
  count_tokens_of env (combined_summaries sorted) > 100000 →
  synthesize_map env analyses w
  = (_create_final_map env (combined_full sorted) false,
     World (cache_dir w) (output_dir w)
           (trace w ++ [CountTokens (combined_summaries sorted)])).
Proof.
  intros sorted Hover.
  unfold synthesize_map, count_tokens, log, mbind, M_bind, mret, M_ret.
  fold sorted. cbn zeta.
  destruct (Z.gtb_spec (count_tokens_of env (combined_summaries sorted)) 100000);
    [done|lia].
Qed.

Lemma synthesize_map_within_ceiling (analyses : list analysis) (w : world) :
  let sorted := sort_analyses analyses in
  let prompt := synthesis_prompt (combined_summaries sorted) in
  count_tokens_of env (combined_summaries sorted) ≤ 100000 →
  synthesize_map env analyses w
  = (match ollama env (length (backend_calls w)) prompt with
     | Completed returncode stdout _ =>
         if returncode =? 0 then _create_final_map env stdout true
         else _create_final_map env (combined_full sorted) false
     | _ => _create_final_map env (combined_full sorted) false
     end,
     World (cache_dir w) (output_dir w)
           (trace w ++ [CountTokens (combined_summaries sorted); OllamaRun prompt])).
Proof.
  intros sorted prompt Hfits.
  unfold synthesize_map, count_tokens, ollama_run, log, mbind, M_bind, mret, M_ret.
  fold sorted. cbn zeta. fold prompt.
  destruct (Z.gtb_spec (count_tokens_of env (combined_summaries sorted)) 100000);
    [lia|].
  cbn [cache_dir output_dir trace].
  rewrite backend_calls_trace_app. cbn [omap]. rewrite app_nil_r.
  rewrite <-(assoc_L (++)). cbn [app].
  destruct (ollama env _ _) as [rc out err| |e]; [|done..].
  by destruct (rc =? 0).
Qed.

(** The synthesizer writes no file. *)
Lemma synthesize_map_files (analyses : list analysis) (w : world) :
  cache_dir (synthesize_map env analyses w).2 = cache_dir w
  ∧ output_dir (synthesize_map env analyses w).2 = output_dir w.
Proof.
  destruct (Z.gtb_spec
    (count_tokens_of env (combined_summaries (sort_analyses analyses))) 100000).
  - by rewrite synthesize_map_over_ceiling by lia.
  - by rewrite synthesize_map_within_ceiling by lia.
Qed.

(** The clean-up loop removes the cache files of the given ids and no
    other, and does nothing else. *)
Lemma for_each_clean_cache (ids : list nat) (w : world) :
  ∃ w',
    for_each clean_cache ids w = (tt, w')
    ∧ output_dir w' = output_dir w
    ∧ trace w' = trace w
    ∧ ∀ k, cache_dir w' !! k
           = if decide (k ∈ cache_file <$> ids) then None else cache_dir w !! k.
Proof.
  revert w. induction ids as [|i ids IH]; intros w.
  { exists w. do 3 (split; [done|]). intros k.
    rewrite decide_False; [done|]. by intros ?%elem_of_nil. }
  set (w1 := (clean_cache i w).2).
  assert (clean_cache i w = (tt, w1)) as Hstep.
  { unfold w1, clean_cache, cache_lookup, cache_unlink, mbind, M_bind, mret, M_ret.
    by destruct (cache_dir w !! cache_file i). }
  assert (output_dir w1 = output_dir w ∧ trace w1 = trace w
          ∧ cache_dir w1 = delete (cache_file i) (cache_dir w)) as (Ho & Ht & Hc).
  { unfold w1, clean_cache, cache_lookup, cache_unlink, mbind, M_bind, mret, M_ret.
    destruct (cache_dir w !! cache_file i) eqn:Hi; simpl; repeat split.
    by rewrite delete_id. }
  destruct (IH w1) as (w2 & Hrest & Ho2 & Ht2 & Hc2).
  exists w2. split.
  { simpl. unfold mbind, M_bind. rewrite Hstep. exact Hrest. }
  split; [congruence|]. split; [congruence|].
  intros k. rewrite Hc2, Hc, fmap_cons.
  destruct (decide (k = cache_file i)) as [->|Hne].
  - rewrite lookup_delete_eq. rewrite (decide_True (P := _ ∈ _ :: _));
      [by destruct (decide _)|apply list_elem_of_here].
  - rewrite lookup_delete_ne by done.
    destruct (decide (k ∈ cache_file <$> ids)) as [Hin|Hnin].
    + rewrite decide_True; [done|by apply list_elem_of_further].
    + rewrite decide_False; [done|]. by intros [?|?]%elem_of_cons.
Qed.

Lemma run_no_files (w : world) : run env [] w = (None, w).
Proof. reflexivity. Qed.

Lemma successful_ids_nil (analyses : list analysis) :
  successful_ids analyses = [] ↔ Forall (λ a, is_error a = true) analyses.
Proof.
  unfold successful_ids.
  induction analyses as [|a l IH]; [by rewrite filter_nil|].
  rewrite filter_cons, Forall_cons.
  destruct (decide (is_error a = false)) as [Ha|Ha].
  - rewrite fmap_cons. split; [done|]. intros [? _]. congruence.
  - rewrite IH. apply not_false_iff_true in Ha. tauto.
Qed.

(** [run] on a non-empty scan, when no chunk succeeded. *)
Lemma run_all_failed (files : list file_info) (w : world) :
  files ≠ [] →
  Forall (λ a, is_error a = true) (analyze_chunks env (chunks_of env files) w).1 →
  run env files w = (None, (analyze_chunks env (chunks_of env files) w).2).
Proof.
  intros Hfiles Hall%successful_ids_nil.
  destruct files as [|f files]; [done|].
  unfold run, chunks_of in *. unfold Packer.create_chunks in *. cbn [fst] in *.
  unfold mbind at 1. unfold M_bind at 1.
  destruct (analyze_chunks env _ w) as [analyses w1]. cbn [fst snd] in *.
  by rewrite Hall.
Qed.

(** [run] on a non-empty scan, when some chunk succeeded. *)
Lemma run_completed (files : list file_info) (w : world) :
  let analyses := (analyze_chunks env (chunks_of env files) w).1 in
  let w1 := (analyze_chunks env (chunks_of env files) w).2 in
  files ≠ [] →
  successful_ids analyses ≠ [] →
  ∃ w3,
    run env files w = (Some (output_path env), w3)
    ∧ output_dir w3
      = <[timestamp_file := now_isoformat env]>
          (<[map_file := (synthesize_map env analyses w1).1]> (output_dir w1))
    ∧ trace w3 = trace (synthesize_map env analyses w1).2
    ∧ ∀ k, cache_dir w3 !! k
           = if decide (k ∈ cache_file <$> successful_ids analyses) then None
             else cache_dir w1 !! k.
Proof.
  intros analyses w1 Hfiles Hsome.
  destruct files as [|f files]; [done|].
  unfold run. subst analyses w1. unfold chunks_of in *.
  unfold Packer.create_chunks in *. cbn [fst] in *.
  unfold mbind at 1. unfold M_bind at 1.
  destruct (analyze_chunks env _ w) as [analyses w1]. cbn [fst snd] in *.
  destruct (successful_ids analyses) as [|i ids] eqn:Hids; [done|].
  unfold mbind at 1. unfold M_bind at 1.
  pose proof (synthesize_map_files analyses w1) as [Hsc Hso].
  destruct (synthesize_map env analyses w1) as [doc w2]. cbn [fst snd] in *.
  unfold mbind at 1 2, M_bind at 1 2, output_write at 1 2. cbn zeta.
  cbn [cache_dir output_dir trace].
  set (w2' := World _ _ _).
  destruct (for_each_clean_cache (i :: ids) w2') as (w3 & Hclean & Ho & Ht & Hc).
  exists w3. split.
  { unfold mbind, M_bind. rewrite Hclean. done. }
  split; [by rewrite Ho; unfold w2'; cbn; rewrite Hso|].
  split; [done|].
  intros k. rewrite Hc. unfold w2'. cbn. by rewrite Hsc.
Qed.

End run_facts.

(** ** The layout of the final map *)

Lemma contains_refl (s : string) : contains s s.
Proof. exists "", "". by rewrite string_app_nil_r. Qed.

Lemma contains_app_r (s t u : string) : contains t u → contains (s +:+ t) u.
Proof.
  intros (pre & post & ->). exists (s +:+ pre), post.
  by rewrite string_app_assoc.
Qed.

Lemma contains_app_l (s t u : string) : contains s u → contains (s +:+ t) u.
Proof.
  intros (pre & post & ->). exists pre, (post +:+ t).
  by rewrite !string_app_assoc.
Qed.

Lemma contains_trans (s t u : string) : contains s t → contains t u → contains s u.
Proof.
  intros (pre & post & ->) Htu.
  by apply contains_app_r, contains_app_l.
Qed.

Lemma join_cons (sep x : string) (l : list string) :
  PyStr.join sep (x :: l)
  = match l with [] => x | _ :: _ => x +:+ sep +:+ PyStr.join sep l end.
Proof. by destruct l. Qed.

Lemma join_contains (sep x : string) (l : list string) :
  x ∈ l → contains (PyStr.join sep l) x.
Proof.
  induction l as [|y l IH]; [by intros ?%elem_of_nil|].
  rewrite join_cons. intros [->|Hx]%elem_of_cons.
  - destruct l; [apply contains_refl|apply contains_app_l, contains_refl].
  - destruct l as [|z l]; [by apply elem_of_nil in Hx|].
    by apply contains_app_r, contains_app_r, IH.
Qed.

Lemma create_final_map_layout (env : environment) (content : string) (s : bool) :
  _create_final_map env content s = map_header env s +:+ content +:+ map_footer env.
Proof.
  unfold _create_final_map, map_header, map_footer, PyStr.lines.
  rewrite !join_cons. by rewrite !string_app_assoc, ?string_app_nil_l.
Qed.

Lemma create_final_map_tag (env : environment) (content : string) (s : bool) :
  contains (_create_final_map env content s)
    ("**Analysis:** "
       +:+ (if s then "synthesized" else "concatenated (too large for synthesis)")
       +:+ PyStr.nl).
Proof.
  rewrite create_final_map_layout. apply contains_app_l.
  unfold map_header, PyStr.lines. rewrite !join_cons.
  do 12 apply contains_app_r.
  rewrite <-string_app_assoc. apply contains_app_l, contains_refl.
Qed.

Lemma create_final_map_contains (env : environment) (content : string) (s : bool) :
  contains (_create_final_map env content s) content.
Proof. rewrite create_final_map_layout. by eexists _, _. Qed.

Lemma analysis_block_text (a : analysis) :
  analysis_block a
  = "## Analysis Block " +:+ pretty (chunk_id_of a + 1)%nat
      +:+ PyStr.nl +:+ PyStr.nl +:+ text_of a.
Proof. by destruct a as [[cid text] fc]. Qed.

Lemma combined_full_contains (analyses : list analysis) (a : analysis) :
  a ∈ analyses →
  contains (combined_full analyses) (analysis_block a)
  ∧ contains (combined_full analyses) (text_of a).
Proof.
  intros Ha.
  assert (contains (combined_full analyses) (analysis_block a)) as Hblock.
  { apply join_contains, list_elem_of_fmap. eauto. }
  split; [done|]. eapply contains_trans; [exact Hblock|].
  rewrite analysis_block_text.
  do 4 apply contains_app_r. apply contains_refl.
Qed.

(** The texts the synthesizer builds are those of the vocabulary. *)
Lemma chunk_summary_reduced (a : analysis) :
  chunk_summary a
  = "## Chunk " +:+ pretty (chunk_id_of a + 1)%nat +:+ PyStr.nl
      +:+ reduced_text (text_of a).
Proof.
  destruct a as [[cid text] fc].
  unfold chunk_summary, reduced_text, chunk_id_of, text_of, PyStr.slice_to, PyStr.len.
  cbn [fst snd]. do 3 f_equal.
  destruct (Z.gtb_spec (Z.of_nat (String.length text)) 2000) as [Hlong|Hshort].
  - rewrite (proj2 (Nat.leb_gt _ _)) by lia. done.
  - rewrite (proj2 (Nat.leb_le _ _)) by lia. apply substring_0_all. lia.
Qed.

Lemma combined_summaries_reduced (analyses : list analysis) :
  combined_summaries analyses = reduced analyses.
Proof.
  unfold combined_summaries.
  induction analyses as [|a l IH]; [done|].
  cbn [map reduced]. rewrite join_cons, chunk_summary_reduced.
  destruct l as [|b l]; [done|].
  cbn [map] in IH |- *. rewrite IH. by rewrite !string_app_assoc.
Qed.

Lemma combined_full_sections (analyses : list analysis) :
  combined_full analyses = sections analyses.
Proof.
  unfold combined_full.
  induction analyses as [|a l IH]; [done|].
  cbn [map sections]. rewrite join_cons, analysis_block_text.
  destruct l as [|b l]; [done|].
  cbn [map] in IH |- *. rewrite IH. unfold block_separator, section_header.
  by rewrite !string_app_assoc.
Qed.

Lemma sections_contains (analyses : list analysis) (a : analysis) :
  a ∈ analyses →
  contains (sections analyses)
    (section_header (chunk_id_of a) +:+ PyStr.nl +:+ PyStr.nl +:+ text_of a).
Proof.
  rewrite <-combined_full_sections. intros Ha.
  destruct (combined_full_contains analyses a Ha) as [Hblock _].
  by rewrite analysis_block_text in Hblock.
Qed.

(** ** The dispatcher *)

(** C6. A chunk whose cache file exists is served from it: the text is the
    cached text, the result is marked as a cache hit, and the world is
    left as it was, so no backend call and no token count took place;
    dispatching again gives the same. *)
Theorem analyze_chunk_cached (env : environment) (chunk_id : nat) (c : chunk)
    (w : world) (text : string) :
  cache_dir w !! cache_file chunk_id = Some text →
  analyze_chunk env chunk_id c w = ((chunk_id, text, true), w)
  ∧ trace (analyze_chunk env chunk_id c w).2 = trace w
  ∧ backend_calls (analyze_chunk env chunk_id c w).2 = backend_calls w
  ∧ analyze_chunk env chunk_id c (analyze_chunk env chunk_id c w).2
    = analyze_chunk env chunk_id c w.
Proof.
  intros Hhit. rewrite (analyze_chunk_hit env chunk_id c w text Hhit).
  cbn [snd]. by rewrite (analyze_chunk_hit env chunk_id c w text Hhit).
Qed.

Lemma analyze_chunk_cached_witness :
  let w := World {[ "chunk_002.md" := "cached analysis" ]} ∅ [] in
  analyze_chunk Scenario.backend_down 2 [Scenario.file "a.py" 7] w
  = ((2%nat, "cached analysis", true), w).
Proof.
  intros w.
  apply (analyze_chunk_cached Scenario.backend_down 2
           [Scenario.file "a.py" 7] w "cached analysis").
  reflexivity.
Defined.

(** A dispatch that misses the cache and fails leaves the cache as it
    was: the error text is returned and written nowhere. *)
Lemma analyze_chunk_failure_not_cached (env : environment) (chunk_id : nat)
    (c : chunk) (w : world) :
  cache_dir w !! cache_file chunk_id = None →
  (∀ stdout stderr,
     ollama env (length (backend_calls w)) (analysis_prompt c)
       = Completed 0 stdout stderr →
     PyStr.strip stdout = "") →
  is_error (analyze_chunk env chunk_id c w).1 = true
  ∧ from_cache_of (analyze_chunk env chunk_id c w).1 = false
  ∧ cache_dir (analyze_chunk env chunk_id c w).2 = cache_dir w.
Proof.
  intros Hmiss Hfail. rewrite (analyze_chunk_miss env chunk_id c w Hmiss). cbn zeta.
  destruct (ollama env _ _) as [rc out err| |e] eqn:Hout;
    [|done|split; [apply is_error_marker|done]].
  destruct (Z.eqb_spec rc 0) as [->|Hrc].
  - rewrite (Hfail _ _ eq_refl). done.
  - split; [|done].
    apply (is_error_marker chunk_id (" Ollama failed - " +:+ err) false).
Qed.

(** C2. The code at the failing input: the backend is down, the cache is
    empty, chunk 0 is dispatched. The result carries the error marker and
    no cache file exists afterwards, as before the attempt. *)
Theorem failed_attempt_leaves_no_cache_file :
  let c := [Scenario.file "a.py" 7] in
  let w := Scenario.empty_world in
  analyze_chunk Scenario.backend_down 0 c w
  = ((0%nat, "ERROR: Ollama failed - connection refused", false),
     called (analysis_prompt c) w)
  ∧ cache_dir (analyze_chunk Scenario.backend_down 0 c w).2 !! cache_file 0 = None
  ∧ cache_dir (analyze_chunk Scenario.backend_down 0 c w).2 = cache_dir w.
Proof. by vm_compute. Qed.

(** ** The synthesizer *)

Lemma sort_analyses_perm (analyses : list analysis) :
  sort_analyses analyses ≡ₚ analyses.
Proof. apply sort_perm. Qed.

Lemma sort_analyses_ascending (analyses : list analysis) :
  StronglySorted (λ a b, (chunk_id_of a ≤ chunk_id_of b)%nat)
    (sort_analyses analyses).
Proof.
  pose proof (sort_sorted (λ x : analysis, Z.of_nat (chunk_id_of x)) false analyses)
    as Hsorted.
  unfold sort_analyses.
  induction Hsorted as [|a l Hl IH Ha]; constructor; [done|].
  eapply Forall_impl; [exact Ha|].
  unfold PySort.key_order. intros b. lia.
Qed.

(** C5. When the reduced representation of the results (each text cut to
    its first 2000 characters, under chunk headers) counts more tokens
    than the synthesis ceiling, the synthesizer calls no backend and
    returns the map whose header says concatenated and whose content is
    the full text of every result, each under its section header, in
    ascending chunk id order; a run that gets there writes that map and
    returns its path. *)
Theorem synthesize_map_degrades (env : environment) (analyses : list analysis)
    (w : world) :
  let sorted := sort_analyses analyses in
  let doc := (synthesize_map env analyses w).1 in
  let w' := (synthesize_map env analyses w).2 in
  count_tokens_of env (reduced sorted) > 100000 →
  sorted ≡ₚ analyses
  ∧ StronglySorted (λ a b, (chunk_id_of a ≤ chunk_id_of b)%nat) sorted
  ∧ doc = map_header env false +:+ sections sorted +:+ map_footer env
  ∧ contains doc
      ("**Analysis:** concatenated (too large for synthesis)" +:+ PyStr.nl)
  ∧ Forall (λ a, contains doc
                   (section_header (chunk_id_of a) +:+ PyStr.nl +:+ PyStr.nl
                      +:+ text_of a)) analyses
  ∧ trace w' = trace w ++ [CountTokens (reduced sorted)]
  ∧ backend_calls w' = backend_calls w
  ∧ cache_dir w' = cache_dir w ∧ output_dir w' = output_dir w
  ∧ ∀ files w0,
      files ≠ [] →
      analyze_chunks env (chunks_of env files) w0 = (analyses, w) →
      successful_ids analyses ≠ [] →
      (run env files w0).1 = Some (output_path env)
      ∧ output_dir (run env files w0).2 !! map_file = Some doc
      ∧ backend_calls (run env files w0).2 = backend_calls w.
Proof.
  intros sorted doc w'. rewrite <-combined_summaries_reduced. intros Hover.
  subst doc w'.
  rewrite (synthesize_map_over_ceiling env analyses w Hover). cbn [fst snd].
  fold sorted.
  assert (backend_calls
            (World (cache_dir w) (output_dir w)
               (trace w ++ [CountTokens (combined_summaries sorted)]))
          = backend_calls w) as Hcalls.
  { rewrite backend_calls_trace_app. cbn [omap]. by rewrite app_nil_r. }
  split; [apply sort_analyses_perm|]. split; [apply sort_analyses_ascending|].
  split; [by rewrite create_final_map_layout, combined_full_sections|].
  split; [apply (create_final_map_tag env _ false)|].
  split.
  { apply Forall_forall. intros a Ha.
    assert (a ∈ sorted) as Hin by (unfold sorted; by rewrite sort_analyses_perm).
    eapply contains_trans; [apply create_final_map_contains|].
    rewrite combined_full_sections. by apply sections_contains. }
  split; [done|]. split; [done|]. split; [done|]. split; [done|].
  intros files w0 Hfiles Hdispatch Hsome.
  pose proof (run_completed env files w0) as Hrun. cbn zeta in Hrun.
  rewrite Hdispatch in Hrun. cbn [fst snd] in Hrun.
  destruct (Hrun Hfiles Hsome) as (w3 & -> & Hout & Htrace & _). cbn [fst snd].
  rewrite (synthesize_map_over_ceiling env analyses w Hover) in Hout, Htrace.
  cbn [fst snd] in Hout, Htrace. fold sorted in Hout, Htrace.
  split; [done|]. split.
  - rewrite Hout, lookup_insert_ne by done. by rewrite lookup_insert_eq.
  - rewrite <-Hcalls. unfold backend_calls. by rewrite Htrace.
Qed.

(** Here the backend answers every call with status zero: had the
    synthesizer called it, the map would say synthesized. *)
Lemma synthesize_map_degrades_witness :
  let env := Scenario.model_says_nothing in
  let result :=
    synthesize_map env Scenario.long_results Scenario.empty_world in
  result.1
  = map_header env false
      +:+ sections (sort_analyses Scenario.long_results) +:+ map_footer env
  ∧ backend_calls result.2 = [].
Proof.
  intros env result.
  destruct (synthesize_map_degrades env Scenario.long_results
              Scenario.empty_world) as (_ & _ & Hdoc & _ & _ & _ & Hcalls & _).
  - by vm_compute.
  - split; [exact Hdoc|exact Hcalls].
Defined.

(** C10. A synthesis call that exits with status zero is taken as it is:
    its output, whatever it is, becomes the content of a map whose header
    says synthesized, with no test for emptiness and no stripping. The
    same reply to a chunk analysis, when it is blank, is turned into an
    error result and cached nowhere. *)
Theorem synthesis_reply_not_validated (env : environment)
    (analyses : list analysis) (w : world) (stdout stderr : string) :
  let summaries := combined_summaries (sort_analyses analyses) in
  count_tokens_of env summaries ≤ 100000 →
  ollama env (length (backend_calls w)) (synthesis_prompt summaries)
    = Completed 0 stdout stderr →
  (synthesize_map env analyses w).1 = _create_final_map env stdout true
  ∧ (synthesize_map env analyses w).1
    = map_header env true +:+ stdout +:+ map_footer env
  ∧ contains (synthesize_map env analyses w).1
      ("**Analysis:** synthesized" +:+ PyStr.nl)
  ∧ ∀ chunk_id c w',
      cache_dir w' !! cache_file chunk_id = None →
      ollama env (length (backend_calls w')) (analysis_prompt c)
        = Completed 0 stdout stderr →
      PyStr.strip stdout = "" →
      analyze_chunk env chunk_id c w'
      = ((chunk_id, "ERROR: Ollama returned empty response", false),
         called (analysis_prompt c) w')
      ∧ is_error (analyze_chunk env chunk_id c w').1 = true.
Proof.
  intros summaries Hfits Hreply.
  rewrite (synthesize_map_within_ceiling env analyses w Hfits).
  fold summaries. rewrite Hreply. cbn [fst]. change (0 =? 0) with true. cbn iota.
  split; [done|]. split; [apply create_final_map_layout|].
  split; [apply (create_final_map_tag env _ true)|].
  intros chunk_id c w' Hmiss Hreply' Hblank.
  rewrite (analyze_chunk_miss env chunk_id c w' Hmiss). cbn zeta.
  rewrite Hreply'. change (0 =? 0) with true. cbn iota.
  by rewrite Hblank.
Qed.

Lemma synthesis_reply_not_validated_witness :
  let env := Scenario.model_says_nothing in
  let w := Scenario.empty_world in
  (synthesize_map env [(0%nat, "first", false)] w).1 = _create_final_map env "" true
  ∧ analyze_chunk env 0 [Scenario.file "a.py" 7] w
    = ((0%nat, "ERROR: Ollama returned empty response", false),
       called (analysis_prompt [Scenario.file "a.py" 7]) w).
Proof.
  intros env w.
  destruct (synthesis_reply_not_validated env [(0%nat, "first", false)] w "" "")
    as (Hmap & _ & _ & Hchunk).
  - by vm_compute.
  - reflexivity.
  - split; [exact Hmap|].
    by apply (Hchunk 0%nat [Scenario.file "a.py" 7] w).
Defined.

(** ** The run *)

Section pipeline_facts.
Context (env : environment).

Lemma analyze_chunks_effect (chunks : list chunk) (w : world) :
  ∃ rs,
    (analyze_chunks env chunks w).1 = as_completed env rs
    ∧ chunk_id_of <$> rs = seq 0 (length chunks)
    ∧ output_dir (analyze_chunks env chunks w).2 = output_dir w
    ∧ trace (analyze_chunks env chunks w).2
      = trace w ++ (OllamaRun <$> uncached_prompts w 0 chunks)
    ∧ (∀ k v, cache_dir w !! k = Some v →
         cache_dir (analyze_chunks env chunks w).2 !! k = Some v)
    ∧ (∀ k v, cache_dir (analyze_chunks env chunks w).2 !! k = Some v →
         cache_dir w !! k = Some v
         ∨ ∃ a, a ∈ rs ∧ k = cache_file (chunk_id_of a) ∧ v = text_of a
                ∧ from_cache_of a = false)
    ∧ (∀ a text, a ∈ rs → cache_dir w !! cache_file (chunk_id_of a) = Some text →
         a = (chunk_id_of a, text, true)).
Proof.
  destruct (for_enumerate_analyze env 0 chunks w)
    as (rs & w' & Hrun & Hids & Hout & Htrace & Hkeep & Hnew & Hhit).
  exists rs. unfold analyze_chunks, mbind, M_bind, mret, M_ret.
  rewrite Hrun. cbn [fst snd]. done.
Qed.

Lemma backend_calls_dispatch (chunks : list chunk) (w : world) :
  backend_calls (analyze_chunks env chunks w).2
  = backend_calls w ++ uncached_prompts w 0 chunks.
Proof.
  destruct (analyze_chunks_effect chunks w) as (rs & _ & _ & _ & Htrace & _).
  unfold backend_calls. rewrite Htrace, omap_app. f_equal. clear Htrace.
  induction (uncached_prompts w 0 chunks) as [|p l IH]; [done|].
  simpl. f_equal. exact IH.
Qed.

Lemma backend_calls_synthesize (analyses : list analysis) (w : world) :
  ∃ rest,
    backend_calls (synthesize_map env analyses w).2 = backend_calls w ++ rest
    ∧ (length rest ≤ 1)%nat.
Proof.
  destruct (Z.gtb_spec
    (count_tokens_of env (combined_summaries (sort_analyses analyses))) 100000).
  - rewrite synthesize_map_over_ceiling by lia. exists [].
    cbn [snd]. rewrite backend_calls_trace_app. cbn [omap length]. split; [done|lia].
  - rewrite synthesize_map_within_ceiling by lia. eexists [_].
    cbn [snd]. rewrite backend_calls_trace_app. cbn [omap length]. split; done.
Qed.

(** The backend calls of a run: one for each chunk without a cache file,
    in submission order, then at most one for the synthesis. *)
Lemma backend_calls_run (files : list file_info) (w : world) :
  ∃ rest,
    backend_calls (run env files w).2
    = backend_calls w ++ uncached_prompts w 0 (chunks_of env files) ++ rest
    ∧ (length rest ≤ 1)%nat.
Proof.
  destruct (decide (files = [])) as [->|Hfiles].
  { exists []. rewrite run_no_files. cbn [snd]. unfold uncached_prompts.
    cbn. rewrite !app_nil_r. split; [done|lia]. }
  set (analyses := (analyze_chunks env (chunks_of env files) w).1).
  destruct (decide (successful_ids analyses = [])) as [Hnone|Hsome].
  - apply successful_ids_nil in Hnone.
    rewrite (run_all_failed env files w Hfiles Hnone). cbn [snd].
    exists []. rewrite app_nil_r, backend_calls_dispatch. split; [done|simpl; lia].
  - destruct (run_completed env files w Hfiles Hsome) as (w3 & -> & _ & Htrace & _).
    cbn [snd].
    destruct (backend_calls_synthesize analyses
                (analyze_chunks env (chunks_of env files) w).2)
      as (rest & Hcalls & Hlen).
    exists rest. split; [|done].
    unfold backend_calls at 1. rewrite Htrace. fold analyses.
    fold (backend_calls (synthesize_map env analyses
            (analyze_chunks env (chunks_of env files) w).2).2).
    by rewrite Hcalls, backend_calls_dispatch, (assoc_L (++)).
Qed.

Lemma analyze_chunks_ids (chunks : list chunk) (w : world) :
  pool_complete env →
  chunk_id_of <$> (analyze_chunks env chunks w).1 ≡ₚ seq 0 (length chunks).
Proof.
  intros Hpool. destruct (analyze_chunks_effect chunks w) as (rs & -> & <- & _).
  by rewrite (Hpool rs).
Qed.

End pipeline_facts.

Lemma NoDup_fmap_elem {A B} (f : A → B) (l : list A) (x y : A) :
  NoDup (f <$> l) → x ∈ l → y ∈ l → f x = f y → x = y.
Proof.
  induction l as [|z l IH]; [by intros _ ?%elem_of_nil|].
  rewrite fmap_cons, NoDup_cons.
  intros [Hz Hl] [->|Hx]%elem_of_cons [->|Hy]%elem_of_cons Heq; [done|..].
  - destruct Hz. rewrite Heq. apply list_elem_of_fmap. eauto.
  - destruct Hz. rewrite <-Heq. apply list_elem_of_fmap. eauto.
  - by apply IH.
Qed.


(** C1, as stated, fails. First run: chunk 0 succeeds, chunk 1 fails, the
    map is written. No cache file is left for chunk 0, and the second run
    over the same files serves no chunk from the cache: it calls the
    backend for chunk 0 again, as for chunk 1. *)
Lemma rerun_calls_backend_for_succeeded_chunk :
  let env := Scenario.second_call_fails in
  let chunks := chunks_of env Scenario.two_files in
  let first := run env Scenario.two_files Scenario.empty_world in
  let second := run env Scenario.two_files first.2 in
  chunks = [[Scenario.file "b.py" 8]; [Scenario.file "a.py" 7]]
  ∧ (analyze_chunks env chunks Scenario.empty_world).1
    = [(1%nat, "ERROR: Ollama failed - boom", false); (0%nat, "reply 0", false)]
  ∧ first.1 = Some "docs/CODEBASE_MAP.md"
  ∧ output_dir first.2 !! map_file
    = Some (_create_final_map env (" reply 2" +:+ PyStr.nl) true)
  ∧ cache_dir first.2 !! cache_file 0 = None
  ∧ drop (length (backend_calls first.2)) (backend_calls second.2)
    = [analysis_prompt [Scenario.file "b.py" 8];
       analysis_prompt [Scenario.file "a.py" 7];
       synthesis_prompt (combined_summaries
         [(0%nat, "reply 3", false); (1%nat, "reply 4", false)])]
  ∧ (analyze_chunks env chunks first.2).1
    = [(1%nat, "reply 4", false); (0%nat, "reply 3", false)]
  ∧ analysis_prompt [Scenario.file "b.py" 8]
    ∈ drop (length (backend_calls first.2)) (backend_calls second.2).
Proof.
  intros env chunks first second.
  assert (drop (length (backend_calls first.2)) (backend_calls second.2)
    = [analysis_prompt [Scenario.file "b.py" 8];
       analysis_prompt [Scenario.file "a.py" 7];
       synthesis_prompt (combined_summaries
         [(0%nat, "reply 3", false); (1%nat, "reply 4", false)])]) as Hcalls
    by (by vm_compute).
  split; [by vm_compute|]. split; [by vm_compute|]. split; [by vm_compute|].
  split; [by vm_compute|]. split; [by vm_compute|]. split; [exact Hcalls|].
  split; [by vm_compute|].
  rewrite Hcalls. apply list_elem_of_here.
Qed.

(** C1, amended. After a run that wrote the map, no chunk that succeeded
    has a cache file, and a chunk that failed has the cache file the
    dispatch left for it, if any. A following run over the same files
    calls the backend for every chunk without a cache file, in submission
    order, and then at most once for the synthesis; it serves a chunk
    that has a cache file from it; the chunks that succeeded before are
    all among those it calls the backend for. *)
Theorem rerun_after_completed_run (env env' : environment)
    (files : list file_info) (w0 : world) :
  let chunks := chunks_of env files in
  let analyses := (analyze_chunks env chunks w0).1 in
  let dispatched := (analyze_chunks env chunks w0).2 in
  let w1 := (run env files w0).2 in
  let w2 := (run env' files w1).2 in
  pool_complete env →
  pool_complete env' →
  max_tokens_per_chunk env' = max_tokens_per_chunk env →
  (run env files w0).1 = Some (output_path env) →
  (∀ a, a ∈ analyses → is_error a = false →
     cache_dir w1 !! cache_file (chunk_id_of a) = None)
  ∧ (∀ a, a ∈ analyses → is_error a = true →
       cache_dir w1 !! cache_file (chunk_id_of a)
       = cache_dir dispatched !! cache_file (chunk_id_of a))
  ∧ (∃ rest,
       backend_calls w2 = backend_calls w1 ++ uncached_prompts w1 0 chunks ++ rest
       ∧ (length rest ≤ 1)%nat)
  ∧ (∀ b text, b ∈ (analyze_chunks env' chunks w1).1 →
       cache_dir w1 !! cache_file (chunk_id_of b) = Some text →
       b = (chunk_id_of b, text, true))
  ∧ (∀ a, a ∈ analyses → is_error a = false →
       ∃ c, chunks !! chunk_id_of a = Some c
            ∧ analysis_prompt c ∈ uncached_prompts w1 0 chunks).
Proof.
  intros chunks analyses dispatched w1 w2 Hpool Hpool' Hbudget Hdone.
  assert (files ≠ []) as Hfiles.
  { intros ->. by rewrite run_no_files in Hdone. }
  assert (successful_ids analyses ≠ []) as Hsome.
  { intros Hnone%successful_ids_nil.
    by rewrite (run_all_failed env files w0 Hfiles Hnone) in Hdone. }
  destruct (run_completed env files w0 Hfiles Hsome) as (w3 & Hrun & _ & _ & Hcache).
  fold chunks in Hcache. fold analyses in Hcache.
  assert (w1 = w3) as Hw1 by (unfold w1; by rewrite Hrun).
  pose proof (analyze_chunks_ids env chunks w0 Hpool) as Hids.
  fold analyses in Hids.
  assert (NoDup (chunk_id_of <$> analyses)) as Hnodup.
  { rewrite Hids. apply NoDup_seq. }
  assert (∀ a, a ∈ analyses → is_error a = false →
            cache_dir w1 !! cache_file (chunk_id_of a) = None) as Hgone.
  { intros a Ha Hok. rewrite Hw1, Hcache, decide_True; [done|].
    apply list_elem_of_fmap_2. unfold successful_ids.
    apply list_elem_of_fmap_2. by apply list_elem_of_filter. }
  split; [exact Hgone|]. split.
  { intros a Ha Herr. rewrite Hw1, Hcache, decide_False; [done|].
    intros (i & Heq & Hi)%list_elem_of_fmap. apply cache_file_inj in Heq.
    unfold successful_ids in Hi.
    apply list_elem_of_fmap in Hi as (b & -> & [Hb Hin]%list_elem_of_filter).
    assert (a = b) by (by eapply (NoDup_fmap_elem chunk_id_of analyses)).
    congruence. }
  split.
  { unfold w2, chunks, chunks_of. rewrite <-Hbudget. apply backend_calls_run. }
  split.
  { destruct (analyze_chunks_effect env' chunks w1)
      as (rs & Hres & _ & _ & _ & _ & _ & Hhit).
    intros b text Hb. apply Hhit. by rewrite Hres, (Hpool' rs) in Hb. }
  intros a Ha Hok.
  assert (chunk_id_of a ∈ seq 0 (length chunks)) as Hid.
  { rewrite <-Hids. by apply list_elem_of_fmap_2. }
  apply elem_of_seq in Hid.
  destruct (lookup_lt_is_Some_2 chunks (chunk_id_of a)) as [c Hc]; [lia|].
  exists c. split; [done|].
  unfold uncached_prompts.
  apply (list_elem_of_fmap_2 (λ ic : nat * chunk, analysis_prompt ic.2)
           _ (chunk_id_of a, c)).
  apply list_elem_of_filter. split; [by apply Hgone|].
  by apply (enumerate_from_lookup 0).
Qed.

Lemma rerun_after_completed_run_witness :
  let env := Scenario.second_call_fails in
  let w1 := (run env Scenario.two_files Scenario.empty_world).2 in
  cache_dir w1 !! cache_file 0 = None
  ∧ ∃ rest,
      backend_calls (run env Scenario.two_files w1).2
      = backend_calls w1
        ++ uncached_prompts w1 0 (chunks_of env Scenario.two_files) ++ rest
      ∧ (length rest ≤ 1)%nat.
Proof.
  intros env w1.
  destruct (rerun_after_completed_run env env Scenario.two_files
              Scenario.empty_world) as (Hgone & _ & Hcalls & _).
  - intros l. apply reverse_Permutation.
  - intros l. apply reverse_Permutation.
  - reflexivity.
  - by vm_compute.
  - split; [|exact Hcalls].
    apply (Hgone (0%nat, "reply 0", false)); [|reflexivity].
    by apply (bool_decide_unpack _); vm_compute.
Defined.

(** * Further properties *)

(** ** More on the packer *)

Section packer_more.
Import Packer.
Context (max_tokens : Z).

Lemma create_chunks_nonempty (files : list file_info) :
  Forall (λ c, c ≠ []) (create_chunks max_tokens files).1.
Proof.
  unfold create_chunks. cbn [fst].
  apply (finish_nonempty max_tokens), loop_ok, start_ok.
Qed.

Lemma create_chunks_length (files : list file_info) :
  (length (create_chunks max_tokens files).1 ≤ length files)%nat.
Proof.
  assert (concat (create_chunks max_tokens files).1 ≡ₚ files) as Hperm.
  { unfold create_chunks. cbn [fst].
    rewrite finish_files, loop_files. unfold walk_files. simpl. apply sort_perm. }
  rewrite <-(Permutation_length Hperm). clear Hperm.
  induction (create_chunks_nonempty files) as [|c l Hc _ IH]; [done|].
  simpl. rewrite length_app. destruct c; [done|]. simpl. lia.
Qed.

(** X1. No unit is empty, there are at most as many units as files, and
    there is no unit at all exactly when there is no file. *)
Theorem create_chunks_units_nonempty (files : list file_info) :
  Forall (λ c, c ≠ []) (create_chunks max_tokens files).1
  ∧ (length (create_chunks max_tokens files).1 ≤ length files)%nat
  ∧ ((create_chunks max_tokens files).1 = [] ↔ files = []).
Proof.
  split; [apply create_chunks_nonempty|]. split; [apply create_chunks_length|].
  split; [|by intros ->].
  intros Hnil. pose proof (create_chunks_length files) as Hlen.
  assert (concat (create_chunks max_tokens files).1 ≡ₚ files) as Hperm.
  { unfold create_chunks. cbn [fst].
    rewrite finish_files, loop_files. unfold walk_files. simpl. apply sort_perm. }
  rewrite Hnil in Hperm. simpl in Hperm. by apply Permutation_nil_l in Hperm.
Qed.

Lemma step_isolating w f : isolating max_tokens w → isolating max_tokens (step max_tokens w f).
Proof.
  intros [Hclosed Hcur]. unfold step.
  destruct (Z.gtb_spec (tokens f) max_tokens) as [Hbig|Hsmall].
  { split; cbn [chunks current_chunk]; [|done].
    apply Forall_app; split; [done|]. constructor; [|done].
    right. by exists f. }
  destruct (current_tokens w + tokens f >? max_tokens);
    split; cbn [chunks current_chunk].
  - apply Forall_app; split; [done|]. constructor; [by left|done].
  - by constructor.
  - done.
  - apply Forall_app; split; [done|]. by constructor.
Qed.

Lemma loop_isolating files w : isolating max_tokens w → isolating max_tokens (loop max_tokens files w).
Proof.
  unfold loop. revert w.
  induction files as [|f files IH]; intros w Hw; simpl; [done|].
  by apply IH, step_isolating.
Qed.

(** X2. A file over the budget is always alone in its unit: every unit
    either holds only files within the budget or is one such file. *)
Theorem create_chunks_isolates_oversized (files : list file_info) :
  Forall (λ c, Forall (λ f, tokens f ≤ max_tokens) c
               ∨ ∃ f, c = [f] ∧ max_tokens < tokens f)
         (create_chunks max_tokens files).1.
Proof.
  unfold create_chunks. cbn [fst].
  destruct (loop_isolating (sort_files files) (Walk [] [] 0)) as [Hclosed Hcur].
  { split; constructor. }
  unfold finish. destruct (current_chunk _) eqn:Heq; [done|].
  apply Forall_app; split; [done|]. constructor; [by left|done].
Qed.

End packer_more.

(** The sorted list is the only list in key order with the same items,
    when no two items have the same key. *)
Lemma sort_perm_unique {A} (key : A → Z) (reverse : bool) (l1 l2 : list A) :
  l1 ≡ₚ l2 → NoDup (key <$> l1) →
  PySort.sort key reverse l1 = PySort.sort key reverse l2.
Proof.
  intros Hperm Hnodup.
  apply (StronglySorted_unique_strong (PySort.key_order key reverse)).
  - intros x1 x2 Hx1 Hx2 H12 H21.
    rewrite sort_perm in Hx1. rewrite sort_perm, <-Hperm in Hx2.
    apply (NoDup_fmap_elem key l1); [done..|].
    unfold PySort.key_order in *. destruct reverse; lia.
  - apply sort_sorted.
  - apply sort_sorted.
  - by rewrite !sort_perm.
Qed.

Lemma StronglySorted_sublist {A} (R : relation A) (l k : list A) :
  l `sublist_of` k → StronglySorted R k → StronglySorted R l.
Proof.
  induction 1 as [|x l k Hlk IH|x l k Hlk IH]; intros Hk.
  - constructor.
  - apply StronglySorted_inv in Hk as [Hk Hx].
    constructor; [by apply IH|].
    rewrite Forall_forall in Hx |- *. intros y Hy. apply Hx.
    by eapply elem_of_sublist.
  - apply StronglySorted_inv in Hk as [Hk _]. by apply IH.
Qed.

Section packer_order.
Import Packer.
Context (max_tokens : Z).

(** X3. With no two files of the same size, the units do not depend on
    the order in which the scan listed the files. *)
Theorem create_chunks_order_independent (files1 files2 : list file_info) :
  files1 ≡ₚ files2 →
  NoDup (tokens <$> files1) →
  create_chunks max_tokens files1 = create_chunks max_tokens files2.
Proof.
  intros Hperm Hnodup. unfold create_chunks, sort_files.
  by rewrite (sort_perm_unique tokens true files1 files2).
Qed.

Lemma step_sublists w f done :
  Forall (λ c, c `sublist_of` done) (chunks w ++ [current_chunk w]) →
  Forall (λ c, c `sublist_of` done ++ [f])
    (chunks (step max_tokens w f) ++ [current_chunk (step max_tokens w f)]).
Proof.
  rewrite Forall_app, Forall_singleton. intros [Hclosed Hcur].
  assert (Forall (λ c, c `sublist_of` done ++ [f]) (chunks w)) as Hclosed'.
  { eapply Forall_impl; [exact Hclosed|]. intros c. apply sublist_inserts_r. }
  unfold step.
  destruct (tokens f >? max_tokens); [|destruct (_ >? max_tokens)];
    cbn [chunks current_chunk]; rewrite !Forall_app, !Forall_singleton.
  - split; [split; [done|]|].
    + apply sublist_inserts_l. done.
    + by apply sublist_inserts_r.
  - split; [split; [done|]|].
    + by apply sublist_inserts_r.
    + by apply sublist_inserts_l.
  - split; [done|]. by apply sublist_app.
Qed.

Lemma loop_sublists files w done :
  Forall (λ c, c `sublist_of` done) (chunks w ++ [current_chunk w]) →
  Forall (λ c, c `sublist_of` done ++ files) (finish (loop max_tokens files w)).
Proof.
  unfold loop. revert w done.
  induction files as [|f files IH]; intros w done Hw; simpl.
  - rewrite app_nil_r. unfold finish. revert Hw.
    destruct (current_chunk w); intros Hw; [|done].
    by apply Forall_app in Hw as [? _].
  - rewrite (cons_middle f), (assoc_L (++)). by apply IH, step_sublists.
Qed.

(** X4. Every unit lists its files in the order of the sorted list: by
    descending token count, files of equal size in scan order. *)
Theorem create_chunks_units_descending (files : list file_info) :
  Forall (λ c, c `sublist_of` sort_files files
               ∧ StronglySorted (λ x y, tokens y ≤ tokens x) c)
         (create_chunks max_tokens files).1.
Proof.
  unfold create_chunks. cbn [fst].
  pose proof (loop_sublists (sort_files files) (Walk [] [] 0) []) as Hsub.
  eapply Forall_impl; [apply Hsub|].
  - repeat constructor.
  - intros c Hc. split; [done|].
    eapply StronglySorted_sublist; [exact Hc|].
    apply (sort_sorted tokens true).
Qed.

Lemma tight_app_inv l1 l2 : tight max_tokens (l1 ++ l2) → tight max_tokens l1.
Proof.
  induction l1 as [|c1 [|c2 l1] IH]; [done..|].
  intros [H12 Hrest]. split; [done|]. by apply IH.
Qed.

Lemma tight_snoc l x :
  tight max_tokens l →
  (∀ c, last l = Some c → closed_late max_tokens c x) →
  tight max_tokens (l ++ [x]).
Proof.
  induction l as [|c1 [|c2 l] IH]; intros Hl Hlast; [done| |].
  - split; [|done]. by apply Hlast.
  - destruct Hl as [H12 Hrest]. split; [done|]. by apply IH.
Qed.

Lemma tight_snoc_2 l c x :
  tight max_tokens (l ++ [c]) → closed_late max_tokens c x →
  tight max_tokens (l ++ [c; x]).
Proof.
  intros Hl Hcx. rewrite (cons_middle c), (assoc_L (++)).
  apply tight_snoc; [done|]. rewrite last_snoc. by intros ? [= <-].
Qed.

(** Invariant of the walk for [tight]. *)
Lemma step_tight w f :
  walk_ok max_tokens w →
  isolating max_tokens w →
  tight max_tokens (chunks w ++ [current_chunk w]) →
  (current_chunk w = [] → Forall (oversized_unit max_tokens) (chunks w)) →
  tight max_tokens
    (chunks (step max_tokens w f) ++ [current_chunk (step max_tokens w f)])
  ∧ (current_chunk (step max_tokens w f) = [] →
     Forall (oversized_unit max_tokens) (chunks (step max_tokens w f))).
Proof.
  intros [_ _ Htok _] [_ Hwithin] Htight Hstart. unfold step.
  destruct (Z.gtb_spec (tokens f) max_tokens) as [Hbig|Hsmall];
    [|destruct (Z.gtb_spec (current_tokens w + tokens f) max_tokens) as [Hfull|Hroom]];
    cbn [chunks current_chunk].
  - assert (oversized_unit max_tokens [f]) as Hf by (by exists f).
    split.
    + rewrite <-(assoc_L (++)). apply tight_snoc_2.
      * apply tight_snoc; [by eapply tight_app_inv|]. intros c _. right. by left.
      * by left.
    + intros Hnil. apply Forall_app; split; [by apply Hstart|by constructor].
  - split; [|done]. rewrite <-(assoc_L (++)). apply tight_snoc_2; [done|].
    right. right. intros g [= <-]. by rewrite <-Htok.
  - split; [|by destruct (current_chunk w)].
    apply tight_snoc; [by eapply tight_app_inv|].
    intros c Hc. destruct (current_chunk w) as [|g cur] eqn:Hcur.
    + left. specialize (Hstart eq_refl). rewrite Forall_forall in Hstart.
      apply Hstart. by apply last_Some_elem_of.
    + assert (closed_late max_tokens c (g :: cur)) as Hlate.
      { clear -Htight Hc. induction (chunks w) as [|c1 [|c2 l] IH]; [done| |].
        - injection Hc as <-. by destruct Htight.
        - destruct Htight as [_ Hrest]. by apply IH. }
      destruct Hlate as [?|[(h & Heq & ?)|Hlate]]; [by left| |].
      * injection Heq as -> ->. rewrite Forall_singleton in Hwithin. exfalso. lia.
      * right. right. intros g' [= <-]. by apply Hlate.
Qed.

End packer_order.

Section packer_tight.
Import Packer.
Context (max_tokens : Z).

Lemma loop_tight files w :
  walk_ok max_tokens w →
  isolating max_tokens w →
  tight max_tokens (chunks w ++ [current_chunk w]) →
  (current_chunk w = [] → Forall (oversized_unit max_tokens) (chunks w)) →
  tight max_tokens (finish (loop max_tokens files w)).
Proof.
  unfold loop. revert w.
  induction files as [|f files IH]; intros w Hok Hiso Htight Hstart; simpl.
  - unfold finish. destruct (current_chunk w); [|done].
    by eapply tight_app_inv.
  - destruct (step_tight max_tokens w f Hok Hiso Htight Hstart) as [Htight' Hstart'].
    apply IH; [by apply step_ok|by apply step_isolating|done..].
Qed.

Lemma tight_lookup l i c1 c2 :
  tight max_tokens l → l !! i = Some c1 → l !! S i = Some c2 →
  closed_late max_tokens c1 c2.
Proof.
  revert i. induction l as [|d1 [|d2 l] IH]; intros i Hl H1 H2; [done| |].
  - by destruct i.
  - destruct Hl as [H12 Hrest]. destruct i as [|i].
    + by simplify_eq/=.
    + by apply (IH i Hrest).
Qed.

(** X5. A unit is closed only when the next file does not fit: of two
    consecutive units, neither being a file over the budget by itself, the
    first together with the first file of the second exceeds the budget. *)
Theorem create_chunks_closes_late (files : list file_info) (i : nat)
    (c1 c2 : chunk) :
  (create_chunks max_tokens files).1 !! i = Some c1 →
  (create_chunks max_tokens files).1 !! S i = Some c2 →
  oversized_unit max_tokens c1 ∨ oversized_unit max_tokens c2
  ∨ ∀ g, head c2 = Some g → max_tokens < total_tokens c1 + tokens g.
Proof.
  apply tight_lookup. unfold create_chunks. cbn [fst].
  apply loop_tight; [apply start_ok|split; constructor|done|done].
Qed.

End packer_tight.

Lemma create_chunks_closes_late_witness :
  let f n := Scenario.file "f" n in
  (Packer.create_chunks 10 [f 3; f 6; f 4; f 5]).1 = [[f 6]; [f 5; f 4]; [f 3]]
  ∧ (oversized_unit 10 [f 6] ∨ oversized_unit 10 [f 5; f 4]
     ∨ ∀ g, head [f 5; f 4] = Some g → 10 < total_tokens [f 6] + tokens g).
Proof.
  intros f. split; [reflexivity|].
  apply (create_chunks_closes_late 10 [f 3; f 6; f 4; f 5] 0); reflexivity.
Defined.

Lemma create_chunks_order_independent_witness :
  let f n := Scenario.file "f" n in
  Packer.create_chunks 10 [f 3; f 6; f 4; f 5]
  = Packer.create_chunks 10 [f 5; f 4; f 6; f 3].
Proof.
  intros f. apply create_chunks_order_independent.
  - change [f 5; f 4; f 6; f 3] with (reverse [f 3; f 6; f 4; f 5]).
    symmetry. apply reverse_Permutation.
  - by apply (bool_decide_unpack _); vm_compute.
Defined.

(** ** More on the dispatcher *)

(** X6. A fresh analysis that succeeds is written to the chunk's cache
    file, and the next dispatch under the same chunk id returns that text
    from the cache, whatever the backend would answer and whatever files
    the chunk holds by then. *)
Theorem analyze_chunk_success_is_cached (env : environment) (chunk_id : nat)
    (c : chunk) (w : world) (stdout stderr : string) :
  let text := PyStr.strip stdout in
  let after := (analyze_chunk env chunk_id c w).2 in
  cache_dir w !! cache_file chunk_id = None →
  ollama env (length (backend_calls w)) (analysis_prompt c)
    = Completed 0 stdout stderr →
  text ≠ "" →
  (analyze_chunk env chunk_id c w).1 = (chunk_id, text, false)
  ∧ cache_dir after !! cache_file chunk_id = Some text
  ∧ ∀ env' c', analyze_chunk env' chunk_id c' after = ((chunk_id, text, true), after).
Proof.
  intros text after Hmiss Hreply Hnonempty. subst after.
  rewrite (analyze_chunk_miss env chunk_id c w Hmiss). cbn zeta.
  rewrite Hreply. change (0 =? 0) with true. cbn iota. fold text.
  destruct text as [|a text'] eqn:Htext; [done|]. cbn [PyStr.is_empty fst snd].
  split; [done|].
  assert (∀ m : gmap string string,
            <[cache_file chunk_id := String a text']> m !! cache_file chunk_id
            = Some (String a text')) as Hlookup
    by (intros m; apply lookup_insert_eq).
  split; [apply Hlookup|].
  intros env' c'. apply analyze_chunk_hit. apply Hlookup.
Qed.

Lemma analyze_chunk_success_is_cached_witness :
  let env := Scenario.second_call_fails in
  let after := (analyze_chunk env 0 [Scenario.file "a.py" 7] Scenario.empty_world).2 in
  analyze_chunk Scenario.backend_down 0 [Scenario.file "b.py" 8] after
  = ((0%nat, "reply 0", true), after).
Proof.
  intros env after.
  destruct (analyze_chunk_success_is_cached env 0 [Scenario.file "a.py" 7]
              Scenario.empty_world (" reply 0" +:+ PyStr.nl) "")
    as (_ & _ & Hnext); [reflexivity..|discriminate|].
  apply (Hnext Scenario.backend_down [Scenario.file "b.py" 8]).
Defined.

(** X7. One dispatch writes no file but the chunk's own cache file, which
    it may create but never changes or removes; it makes at most one
    backend call, with the chunk's analysis prompt, and counts no
    tokens. *)
Theorem analyze_chunk_frame (env : environment) (chunk_id : nat) (c : chunk)
    (w : world) :
  let after := (analyze_chunk env chunk_id c w).2 in
  output_dir after = output_dir w
  ∧ (∀ name, name ≠ cache_file chunk_id →
       cache_dir after !! name = cache_dir w !! name)
  ∧ (∀ name text, cache_dir w !! name = Some text →
       cache_dir after !! name = Some text)
  ∧ (trace after = trace w
     ∨ trace after = trace w ++ [OllamaRun (analysis_prompt c)]).
Proof.
  destruct (analyze_chunk_effect env chunk_id c w)
    as (a & w' & -> & _ & Hout & Htrace & Hcache & _).
  cbn [snd]. split; [done|].
  split; [|split].
  - intros name Hname. destruct Hcache as [->|(_ & -> & _)]; [done|].
    by rewrite lookup_insert_ne.
  - intros name text Hold. destruct Hcache as [->|(Hnone & -> & _)]; [done|].
    rewrite lookup_insert_ne; [done|]. intros <-. congruence.
  - rewrite Htrace. destruct (decide _); [by right|left; by rewrite app_nil_r].
Qed.

(** X8. A result carries the id of its chunk, and a result that does not
    come from the cache has a text that is not empty. *)
Theorem analyze_chunk_result (env : environment) (chunk_id : nat) (c : chunk)
    (w : world) :
  chunk_id_of (analyze_chunk env chunk_id c w).1 = chunk_id
  ∧ (from_cache_of (analyze_chunk env chunk_id c w).1 = true
     ∧ cache_dir w !! cache_file chunk_id
       = Some (text_of (analyze_chunk env chunk_id c w).1)
     ∨ from_cache_of (analyze_chunk env chunk_id c w).1 = false
       ∧ cache_dir w !! cache_file chunk_id = None
       ∧ text_of (analyze_chunk env chunk_id c w).1 ≠ "").
Proof.
  destruct (cache_dir w !! cache_file chunk_id) as [text|] eqn:Hc.
  - rewrite (analyze_chunk_hit env chunk_id c w text Hc). split; [done|by left].
  - rewrite (analyze_chunk_miss env chunk_id c w Hc). cbn zeta.
    destruct (ollama env _ _) as [rc out err| |e];
      [|split; [done|right; done]..].
    destruct (rc =? 0); [|split; [done|right; done]].
    destruct (PyStr.strip out) eqn:Hstrip; split; try done; right; done.
Qed.

(** X9. An empty cache file counts as a finished analysis: the dispatch
    returns the empty text as a cache hit, without a backend call, and the
    result does not carry the error marker. *)
Theorem analyze_chunk_empty_cache_file (env : environment) (chunk_id : nat)
    (c : chunk) (w : world) :
  cache_dir w !! cache_file chunk_id = Some "" →
  analyze_chunk env chunk_id c w = ((chunk_id, "", true), w)
  ∧ is_error (analyze_chunk env chunk_id c w).1 = false
  ∧ successful_ids [(analyze_chunk env chunk_id c w).1] = [chunk_id].
Proof.
  intros Hc. by rewrite (analyze_chunk_hit env chunk_id c w "" Hc).
Qed.

Lemma analyze_chunk_empty_cache_file_witness :
  let w := World {[ "chunk_000.md" := "" ]} ∅ [] in
  analyze_chunk Scenario.backend_down 0 [Scenario.file "a.py" 7] w
  = ((0%nat, "", true), w).
Proof.
  intros w.
  apply (analyze_chunk_empty_cache_file Scenario.backend_down 0
           [Scenario.file "a.py" 7] w).
  reflexivity.
Defined.

(** X10. The dispatch of all chunks gives one result for each chunk: the
    ids of the results are the positions of the chunks, each once. *)
Theorem analyze_chunks_one_result_per_chunk (env : environment)
    (chunks : list chunk) (w : world) :
  pool_complete env →
  chunk_id_of <$> (analyze_chunks env chunks w).1 ≡ₚ seq 0 (length chunks)
  ∧ length (analyze_chunks env chunks w).1 = length chunks
  ∧ NoDup (chunk_id_of <$> (analyze_chunks env chunks w).1).
Proof.
  intros Hpool. pose proof (analyze_chunks_ids env chunks w Hpool) as Hids.
  split; [done|]. split.
  - apply Permutation_length in Hids. by rewrite length_fmap, length_seq in Hids.
  - rewrite Hids. apply NoDup_seq.
Qed.

Lemma analyze_chunks_one_result_per_chunk_witness :
  chunk_id_of <$>
    (analyze_chunks Scenario.second_call_fails
       (chunks_of Scenario.second_call_fails Scenario.two_files)
       Scenario.empty_world).1
  ≡ₚ [0; 1]%nat.
Proof.
  refine (proj1 (analyze_chunks_one_result_per_chunk Scenario.second_call_fails
                   (chunks_of Scenario.second_call_fails Scenario.two_files)
                   Scenario.empty_world _)).
  intros l. apply reverse_Permutation.
Defined.

(** ** More on the synthesizer *)

(** X11. When the synthesis call fails (a status other than zero, a
    timeout or any exception), the synthesizer falls back to the map of
    the full texts, marked as concatenated; it has made that one backend
    call and written no file. *)
Theorem synthesize_map_falls_back (env : environment) (analyses : list analysis)
    (w : world) :
  let sorted := sort_analyses analyses in
  let prompt := synthesis_prompt (combined_summaries sorted) in
  count_tokens_of env (combined_summaries sorted) ≤ 100000 →
  (∀ stdout stderr,
     ollama env (length (backend_calls w)) prompt ≠ Completed 0 stdout stderr) →
  (synthesize_map env analyses w).1
    = _create_final_map env (combined_full sorted) false
  ∧ contains (synthesize_map env analyses w).1
      ("**Analysis:** concatenated (too large for synthesis)" +:+ PyStr.nl)
  ∧ backend_calls (synthesize_map env analyses w).2 = backend_calls w ++ [prompt]
  ∧ cache_dir (synthesize_map env analyses w).2 = cache_dir w
  ∧ output_dir (synthesize_map env analyses w).2 = output_dir w.
Proof.
  intros sorted prompt Hfits Hfail.
  rewrite (synthesize_map_within_ceiling env analyses w Hfits).
  fold sorted. fold prompt. cbn [fst snd].
  assert (match ollama env (length (backend_calls w)) prompt with
          | Completed returncode stdout _ =>
              if returncode =? 0 then _create_final_map env stdout true
              else _create_final_map env (combined_full sorted) false
          | _ => _create_final_map env (combined_full sorted) false
          end = _create_final_map env (combined_full sorted) false) as ->.
  { destruct (ollama env _ _) as [rc out err| |e] eqn:Hout; [|done..].
    destruct (Z.eqb_spec rc 0) as [->|_]; [|done]. by destruct (Hfail out err). }
  split; [done|]. split; [apply (create_final_map_tag env _ false)|].
  split; [|done].
  rewrite backend_calls_trace_app. cbn [omap]. done.
Qed.

Lemma synthesize_map_falls_back_witness :
  let analyses := [(1%nat, "second", false); (0%nat, "first", true)] in
  (synthesize_map Scenario.backend_down analyses Scenario.empty_world).1
  = _create_final_map Scenario.backend_down
      (combined_full (sort_analyses analyses)) false.
Proof.
  intros analyses.
  refine (proj1 (synthesize_map_falls_back Scenario.backend_down analyses
                   Scenario.empty_world _ _)).
  - by vm_compute.
  - intros stdout stderr. discriminate.
Defined.

Lemma sort_analyses_perm_unique (analyses1 analyses2 : list analysis) :
  analyses1 ≡ₚ analyses2 →
  NoDup (chunk_id_of <$> analyses1) →
  sort_analyses analyses1 = sort_analyses analyses2.
Proof.
  intros Hperm Hnodup. apply sort_perm_unique; [done|].
  rewrite (list_fmap_compose chunk_id_of Z.of_nat).
  apply (NoDup_fmap_2 _), Hnodup.
Qed.

Lemma synthesize_map_order_independent_on (env : environment)
    (analyses1 analyses2 : list analysis) (w : world) :
  analyses1 ≡ₚ analyses2 →
  NoDup (chunk_id_of <$> analyses1) →
  synthesize_map env analyses1 w = synthesize_map env analyses2 w.
Proof.
  intros Hperm Hnodup. unfold synthesize_map.
  by rewrite (sort_analyses_perm_unique analyses1 analyses2).
Qed.

(** X12. The synthesizer does not depend on the order of the results it
    is given, when no two of them have the same chunk id: the map and the
    calls it makes are the same. *)
Theorem synthesize_map_order_independent (env : environment)
    (analyses1 analyses2 : list analysis) (w : world) :
  analyses1 ≡ₚ analyses2 →
  NoDup (chunk_id_of <$> analyses1) →
  synthesize_map env analyses1 w = synthesize_map env analyses2 w.
Proof. apply synthesize_map_order_independent_on. Qed.

Lemma synthesize_map_order_independent_witness :
  synthesize_map Scenario.backend_down
    [(1%nat, "second", false); (0%nat, "first", true)] Scenario.empty_world
  = synthesize_map Scenario.backend_down
      [(0%nat, "first", true); (1%nat, "second", false)] Scenario.empty_world.
Proof.
  apply synthesize_map_order_independent.
  - apply Permutation_swap.
  - by apply (bool_decide_unpack _); vm_compute.
Defined.

Lemma substring_0_split (n : nat) (s : string) :
  ∃ rest, s = String.substring 0 n s +:+ rest
          ∧ String.length (String.substring 0 n s) = (n `min` String.length s)%nat.
Proof.
  revert s. induction n as [|n IH]; intros s.
  { exists s. by destruct s. }
  destruct s as [|c s]; [by exists ""|].
  destruct (IH s) as (rest & Hs & Hlen). exists rest. simpl.
  split; [by rewrite string_app_cons, <-Hs|by rewrite Hlen].
Qed.

(** X13. A summary holds the whole text of a result of at most 2000
    characters, and the first 2000 characters followed by the truncation
    mark otherwise: under its header it has at most 2016 characters. *)
Theorem chunk_summary_truncates (cid : nat) (text : string) (from_cache : bool) :
  ∃ body,
    chunk_summary (cid, text, from_cache)
    = "## Chunk " +:+ pretty (cid + 1)%nat +:+ PyStr.nl +:+ body
    ∧ (String.length body ≤ 2016)%nat
    ∧ ((String.length text ≤ 2000)%nat ∧ body = text
       ∨ (2000 < String.length text)%nat
         ∧ ∃ first rest,
             text = first +:+ rest ∧ String.length first = 2000%nat
             ∧ body = first +:+ PyStr.nl +:+ "... (truncated)").
Proof.
  unfold chunk_summary, PyStr.slice_to, PyStr.len.
  destruct (substring_0_split 2000 text) as (rest & Hsplit & Hlen).
  destruct (Z.gtb_spec (Z.of_nat (String.length text)) 2000) as [Hlong|Hshort].
  - eexists. split; [reflexivity|].
    rewrite !string_length_app, Hlen.
    change (String.length PyStr.nl) with 1%nat.
    change (String.length "... (truncated)") with 15%nat.
    split; [lia|].
    right. split; [lia|]. exists (String.substring 0 2000 text), rest.
    split; [done|]. split; [lia|done].
  - assert (String.substring 0 2000 text = text) as Hall.
    { assert (String.length rest = 0%nat) as Hrest.
      { apply (f_equal String.length) in Hsplit.
        rewrite string_length_app, Hlen in Hsplit. lia. }
      destruct rest; [|done]. by rewrite string_app_nil_r in Hsplit. }
    eexists. split; [reflexivity|]. rewrite Hall.
    split; [lia|]. left. split; [lia|done].
Qed.

(** ** More on the run *)

Section dispatch_more.
Context (env : environment).

(** A cache file that one dispatch adds holds the stripped reply of a
    backend call that exited with status zero. *)
Lemma analyze_chunk_written (i : nat) (c : chunk) (w : world) (k v : string) :
  cache_dir (analyze_chunk env i c w).2 !! k = Some v →
  cache_dir w !! k = Some v
  ∨ k = cache_file i
    ∧ ∃ stdout stderr,
        ollama env (length (backend_calls w)) (analysis_prompt c)
        = Completed 0 stdout stderr
        ∧ v = PyStr.strip stdout.
Proof.
  destruct (cache_dir w !! cache_file i) as [text|] eqn:Hc.
  { rewrite (analyze_chunk_hit env i c w text Hc). by left. }
  rewrite (analyze_chunk_miss env i c w Hc). cbn zeta.
  destruct (ollama env _ _) as [rc out err| |e] eqn:Hreply; [|by left..].
  destruct (Z.eqb_spec rc 0) as [->|Hrc]; [|by left].
  destruct (PyStr.is_empty _); [by left|].
  cbn [snd cache_dir called].
  destruct (decide (k = cache_file i)) as [->|Hne].
  - rewrite lookup_insert_eq. intros [= <-]. right. split; [done|]. eauto.
  - rewrite lookup_insert_ne by done. by left.
Qed.

(** The result of a dispatch that does not carry the marker is in the
    chunk's cache file afterwards. *)
Lemma analyze_chunk_ok_cached (i : nat) (c : chunk) (w : world) :
  is_error (analyze_chunk env i c w).1 = false →
  cache_dir (analyze_chunk env i c w).2 !! cache_file i
  = Some (text_of (analyze_chunk env i c w).1).
Proof.
  destruct (cache_dir w !! cache_file i) as [text|] eqn:Hc.
  { by rewrite (analyze_chunk_hit env i c w text Hc). }
  rewrite (analyze_chunk_miss env i c w Hc). cbn zeta.
  assert (∀ msg w', is_error ((i, "ERROR:" +:+ msg, false), w').1 = false →
            cache_dir ((i, "ERROR:" +:+ msg, false), w').2 !! cache_file i
            = Some (text_of ((i, "ERROR:" +:+ msg, false), w').1)) as Hmarked.
  { intros msg w' Hok. cbn [fst] in Hok. by rewrite is_error_marker in Hok. }
  destruct (ollama env _ _) as [rc out err| |e].
  - destruct (rc =? 0); [|apply (Hmarked (" Ollama failed - " +:+ err))].
    destruct (PyStr.is_empty _);
      [apply (Hmarked " Ollama returned empty response")|].
    intros _. cbn [fst snd cache_dir]. by rewrite lookup_insert_eq.
  - apply (Hmarked " Analysis timed out (>5 min)").
  - apply (Hmarked (" " +:+ e)).
Qed.

Lemma for_enumerate_written (start : nat) (chunks : list chunk) (w : world)
    (k v : string) :
  cache_dir (for_enumerate (analyze_chunk env) start chunks w).2 !! k = Some v →
  cache_dir w !! k = Some v
  ∨ ∃ i c n stdout stderr,
      chunks !! i = Some c ∧ k = cache_file (start + i)
      ∧ ollama env n (analysis_prompt c) = Completed 0 stdout stderr
      ∧ v = PyStr.strip stdout.
Proof.
  revert start w. induction chunks as [|c chunks IH]; intros start w; [by left|].
  cbn [for_enumerate]. unfold mbind at 1, M_bind at 1.
  destruct (analyze_chunk env start c w) as [a w1] eqn:Hstep.
  unfold mbind at 1, M_bind at 1.
  destruct (for_enumerate (analyze_chunk env) (S start) chunks w1) as [rs w2] eqn:Hrest.
  cbn [snd mret M_ret]. intros Hk.
  pose proof (IH (S start) w1 ) as IH'. rewrite Hrest in IH'. cbn [snd] in IH'.
  destruct (IH' Hk) as [Hk1|(i & c' & n & out & err & Hi & -> & Hreply & ->)].
  - pose proof (analyze_chunk_written start c w k v) as Hw.
    rewrite Hstep in Hw. cbn [snd] in Hw.
    destruct (Hw Hk1) as [?|(-> & out & err & Hreply & ->)]; [by left|].
    right. exists 0%nat, c, (length (backend_calls w)), out, err.
    by rewrite Nat.add_0_r.
  - right. exists (S i), c', n, out, err.
    split; [done|]. split; [f_equal; lia|done].
Qed.

Lemma for_enumerate_ok_cached (start : nat) (chunks : list chunk) (w : world) :
  Forall (λ a, is_error a = false →
               cache_dir (for_enumerate (analyze_chunk env) start chunks w).2
                 !! cache_file (chunk_id_of a) = Some (text_of a))
    (for_enumerate (analyze_chunk env) start chunks w).1.
Proof.
  revert start w. induction chunks as [|c chunks IH]; intros start w; [constructor|].
  destruct (for_enumerate_analyze env (S start) chunks
              (analyze_chunk env start c w).2)
    as (rs & w2 & Hrest & _ & _ & _ & Hkeep & _).
  pose proof (IH (S start) (analyze_chunk env start c w).2) as IH'.
  pose proof (analyze_chunk_ok_cached start c w) as Hone.
  destruct (analyze_chunk_effect env start c w) as (a & w1 & Hstep & Hid & _).
  cbn [for_enumerate]. unfold mbind at 1 3, M_bind at 1 3.
  rewrite Hstep in *. cbn [fst snd] in *.
  unfold mbind at 1 2, M_bind at 1 2. rewrite Hrest in *.
  cbn [fst snd mret M_ret] in *.
  constructor; [|done].
  intros Hok. rewrite Hid. by apply Hkeep, Hone.
Qed.

Lemma analyze_chunks_written (chunks : list chunk) (w : world) (k v : string) :
  cache_dir (analyze_chunks env chunks w).2 !! k = Some v →
  cache_dir w !! k = Some v
  ∨ ∃ i c n stdout stderr,
      chunks !! i = Some c ∧ k = cache_file i
      ∧ ollama env n (analysis_prompt c) = Completed 0 stdout stderr
      ∧ v = PyStr.strip stdout.
Proof.
  pose proof (for_enumerate_written 0 chunks w k v) as Hw.
  unfold analyze_chunks, mbind, M_bind, mret, M_ret.
  destruct (for_enumerate _ _ _ _) as [rs w']. done.
Qed.

Lemma analyze_chunks_ok_cached (chunks : list chunk) (w : world) :
  pool_complete env →
  Forall (λ a, is_error a = false →
               cache_dir (analyze_chunks env chunks w).2
                 !! cache_file (chunk_id_of a) = Some (text_of a))
    (analyze_chunks env chunks w).1.
Proof.
  intros Hpool. pose proof (for_enumerate_ok_cached 0 chunks w) as Hok.
  unfold analyze_chunks, mbind, M_bind, mret, M_ret.
  destruct (for_enumerate _ _ _ _) as [rs w']. cbn [fst snd] in *.
  by rewrite (Hpool rs).
Qed.

End dispatch_more.

Section run_more.
Context (env : environment).

(** After the dispatch, the cache file of a chunk holds the text of the
    chunk's result. *)
Lemma dispatch_cache_text (chunks : list chunk) (w : world) (a : analysis)
    (text : string) :
  pool_complete env →
  a ∈ (analyze_chunks env chunks w).1 →
  cache_dir (analyze_chunks env chunks w).2 !! cache_file (chunk_id_of a) = Some text →
  text = text_of a.
Proof.
  intros Hpool Ha Hcached.
  destruct (analyze_chunks_effect env chunks w)
    as (rs & Hres & Hids & _ & _ & _ & Hnew & Hhit).
  rewrite Hres, (Hpool rs) in Ha.
  destruct (Hnew _ _ Hcached) as [Hold|(b & Hb & Hname & -> & _)].
  - by rewrite (Hhit a text Ha Hold).
  - apply cache_file_inj in Hname. f_equal.
    apply (NoDup_fmap_elem chunk_id_of rs); [|done..].
    rewrite Hids. apply NoDup_seq.
Qed.

Lemma dispatch_result_of_id (chunks : list chunk) (w : world) (i : nat) :
  pool_complete env →
  (i < length chunks)%nat →
  ∃ a, a ∈ (analyze_chunks env chunks w).1 ∧ chunk_id_of a = i.
Proof.
  intros Hpool Hi. pose proof (analyze_chunks_ids env chunks w Hpool) as Hids.
  assert (i ∈ chunk_id_of <$> (analyze_chunks env chunks w).1) as Hin.
  { rewrite Hids. apply elem_of_seq. lia. }
  apply list_elem_of_fmap in Hin as (a & -> & Ha). by exists a.
Qed.

Lemma successful_ids_elem (analyses : list analysis) (a : analysis) :
  NoDup (chunk_id_of <$> analyses) →
  a ∈ analyses →
  chunk_id_of a ∈ successful_ids analyses ↔ is_error a = false.
Proof.
  intros Hnodup Ha. unfold successful_ids. split.
  - intros (b & Hid & [Hb Hin]%list_elem_of_filter)%list_elem_of_fmap.
    by rewrite (NoDup_fmap_elem chunk_id_of analyses a b).
  - intros Hok. apply list_elem_of_fmap_2. by apply list_elem_of_filter.
Qed.

(** The cache after a run, at the file of a dispatched chunk. *)
Lemma run_cache_of_chunk (files : list file_info) (w : world) (a : analysis) :
  pool_complete env →
  a ∈ (analyze_chunks env (chunks_of env files) w).1 →
  cache_dir (run env files w).2 !! cache_file (chunk_id_of a)
  = if is_error a
    then cache_dir (analyze_chunks env (chunks_of env files) w).2
           !! cache_file (chunk_id_of a)
    else None.
Proof.
  intros Hpool Ha.
  set (analyses := (analyze_chunks env (chunks_of env files) w).1) in *.
  assert (NoDup (chunk_id_of <$> analyses)) as Hnodup.
  { unfold analyses. rewrite (analyze_chunks_ids env _ w Hpool). apply NoDup_seq. }
  destruct (decide (files = [])) as [->|Hfiles].
  { unfold analyses, chunks_of in Ha. cbn in Ha.
    unfold analyze_chunks, mbind, M_bind, mret, M_ret in Ha. cbn in Ha.
    pose proof (Hpool []) as Hnil. apply Permutation_nil_r in Hnil.
    rewrite Hnil in Ha. by apply elem_of_nil in Ha. }
  destruct (decide (successful_ids analyses = [])) as [Hnone|Hsome].
  - pose proof Hnone as Hall%successful_ids_nil.
    rewrite (run_all_failed env files w Hfiles Hall). cbn [snd].
    rewrite Forall_forall in Hall. by rewrite (Hall a Ha).
  - destruct (run_completed env files w Hfiles Hsome) as (w3 & -> & _ & _ & Hcache).
    cbn [snd]. rewrite Hcache. fold analyses.
    destruct (is_error a) eqn:Herr.
    + rewrite decide_False; [done|].
      intros (i & Heq & Hi)%list_elem_of_fmap. apply cache_file_inj in Heq.
      rewrite <-Heq in Hi. apply successful_ids_elem in Hi; [congruence|done..].
    + rewrite decide_True; [done|].
      apply list_elem_of_fmap_2. by apply successful_ids_elem.
Qed.

(** X14. A cache file that holds a text with the error marker stays: the
    run serves it as the chunk's result, does not call the backend for the
    chunk, and leaves the file in place, so every later run does the
    same. *)
Theorem run_keeps_cached_error (files : list file_info) (w : world) (i : nat)
    (text : string) :
  pool_complete env →
  (i < length (chunks_of env files))%nat →
  cache_dir w !! cache_file i = Some text →
  PyStr.startswith "ERROR:" text = true →
  (i, text, true) ∈ (analyze_chunks env (chunks_of env files) w).1
  ∧ cache_dir (run env files w).2 !! cache_file i = Some text.
Proof.
  intros Hpool Hi Hcached Hmarked.
  destruct (dispatch_result_of_id (chunks_of env files) w i Hpool Hi)
    as (a & Ha & Hid).
  destruct (analyze_chunks_effect env (chunks_of env files) w)
    as (rs & Hres & _ & _ & _ & Hkeep & _ & Hhit).
  assert (a = (i, text, true)) as ->.
  { rewrite <-Hid in Hcached |- *. apply Hhit; [|done].
    by rewrite Hres, (Hpool rs) in Ha. }
  split; [done|].
  pose proof (run_cache_of_chunk files w (i, text, true) Hpool Ha) as Hrun.
  unfold chunk_id_of, is_error, text_of in Hrun. cbn [fst snd] in Hrun.
  rewrite Hrun, Hmarked. by apply Hkeep.
Qed.

End run_more.

Lemma run_keeps_cached_error_witness :
  let env := Scenario.second_call_fails in
  cache_dir (run env Scenario.two_files Scenes.failed_before).2 !! cache_file 0
  = Some "ERROR: Analysis timed out (>5 min)".
Proof.
  intros env.
  refine (proj2 (run_keeps_cached_error env Scenario.two_files
                   Scenes.failed_before 0
                   "ERROR: Analysis timed out (>5 min)" _ _ _ _)).
  - intros l. apply reverse_Permutation.
  - vm_compute. lia.
  - reflexivity.
  - reflexivity.
Defined.

Section run_shape.
Context (env : environment).

(** X17. A run makes at most one backend call for each scanned file and
    one more for the synthesis, none when no file was scanned, and keeps
    the record of the calls made before it. *)
Theorem run_backend_calls_bounded (files : list file_info) (w : world) :
  (length (backend_calls (run env files w).2)
   ≤ length (backend_calls w) + length files + 1)%nat
  ∧ backend_calls w `prefix_of` backend_calls (run env files w).2
  ∧ backend_calls (run env [] w).2 = backend_calls w.
Proof.
  destruct (backend_calls_run env files w) as (rest & Hcalls & Hrest).
  rewrite Hcalls. split; [|split; [by eexists|by rewrite run_no_files]].
  rewrite !length_app. unfold uncached_prompts. rewrite length_fmap.
  pose proof (length_filter (uncached w)
                (enumerate_from 0 (chunks_of env files))) as Hfilter.
  unfold enumerate_from in Hfilter at 2. rewrite length_zip, length_seq in Hfilter.
  pose proof (create_chunks_length (max_tokens_per_chunk env) files) as Hlen.
  unfold chunks_of in *. lia.
Qed.

Lemma run_uses_order_at_dispatch_only (order : list analysis → list analysis)
    (chunks : list chunk) (w : world) :
  ∃ rs,
    (analyze_chunks env chunks w).1 = as_completed env rs
    ∧ (analyze_chunks (with_order env order) chunks w).1 = order rs
    ∧ (analyze_chunks (with_order env order) chunks w).2
      = (analyze_chunks env chunks w).2
    ∧ chunk_id_of <$> rs = seq 0 (length chunks).
Proof.
  destruct (for_enumerate_analyze env 0 chunks w) as (rs & w' & Hrun & Hids & _).
  exists rs. unfold analyze_chunks, mbind, M_bind, mret, M_ret.
  change (analyze_chunk (with_order env order)) with (analyze_chunk env).
  by rewrite Hrun.
Qed.

Lemma world_eq (w1 w2 : world) :
  cache_dir w1 = cache_dir w2 → output_dir w1 = output_dir w2 →
  trace w1 = trace w2 → w1 = w2.
Proof. destruct w1, w2. simpl. by intros -> -> ->. Qed.

Lemma successful_ids_perm (analyses1 analyses2 : list analysis) :
  analyses1 ≡ₚ analyses2 → successful_ids analyses1 ≡ₚ successful_ids analyses2.
Proof. intros Hperm. unfold successful_ids. by rewrite Hperm. Qed.

(** X18. The order in which the pool completes the chunks changes nothing
    of a run: the value returned, the files written, the cache left and
    the calls made are the same. *)
Theorem run_order_independent (order : list analysis → list analysis)
    (files : list file_info) (w : world) :
  pool_complete env →
  pool_complete (with_order env order) →
  run (with_order env order) files w = run env files w.
Proof.
  intros Hpool Hpool'.
  destruct (decide (files = [])) as [->|Hfiles]; [done|].
  destruct (run_uses_order_at_dispatch_only order (chunks_of env files) w)
    as (rs & Hres & Hres' & Hworld & Hids).
  assert (order rs ≡ₚ as_completed env rs) as Hperm.
  { rewrite (Hpool rs). apply (Hpool' rs). }
  assert (NoDup (chunk_id_of <$> order rs)) as Hnodup.
  { rewrite (Hpool' rs : order rs ≡ₚ rs), Hids. apply NoDup_seq. }
  destruct (decide (successful_ids (as_completed env rs) = [])) as [Hnone|Hsome].
  - rewrite (run_all_failed env files w Hfiles);
      [|apply successful_ids_nil; by rewrite Hres].
    rewrite (run_all_failed (with_order env order) files w Hfiles).
    + by rewrite <-Hworld.
    + apply successful_ids_nil.
      change (chunks_of (with_order env order) files) with (chunks_of env files).
      rewrite Hres'. apply Permutation_nil_r.
      by rewrite (successful_ids_perm _ _ Hperm), Hnone.
  - destruct (run_completed env files w Hfiles) as (w3 & -> & Hout & Htrace & Hcache);
      [by rewrite Hres|].
    destruct (run_completed (with_order env order) files w Hfiles)
      as (w3' & -> & Hout' & Htrace' & Hcache').
    { change (chunks_of (with_order env order) files) with (chunks_of env files).
      rewrite Hres'. intros Hnone. apply Hsome. apply Permutation_nil_r.
      by rewrite <-(successful_ids_perm _ _ Hperm), Hnone. }
    change (chunks_of (with_order env order) files)
      with (chunks_of env files) in Hout', Htrace', Hcache'.
    change (synthesize_map (with_order env order)) with (synthesize_map env)
      in Hout', Htrace'.
    change (now_isoformat (with_order env order)) with (now_isoformat env) in Hout'.
    rewrite Hres', Hworld in Hout', Htrace', Hcache'.
    rewrite Hres in Hout, Htrace, Hcache.
    rewrite (synthesize_map_order_independent_on env (order rs) (as_completed env rs))
      in Hout', Htrace' by done.
    f_equal. apply world_eq; [|congruence..].
    apply map_eq. intros k. rewrite Hcache, Hcache'.
    destruct (decide (k ∈ cache_file <$> successful_ids (order rs))) as [Hin|Hnin].
    + rewrite decide_True; [done|].
      by rewrite <-(successful_ids_perm _ _ Hperm).
    + rewrite decide_False; [done|].
      by rewrite <-(successful_ids_perm _ _ Hperm).
Qed.

End run_shape.

Lemma run_order_independent_witness :
  run (with_order Scenario.second_call_fails Scenario.in_submission_order)
    Scenario.two_files Scenario.empty_world
  = run Scenario.second_call_fails Scenario.two_files Scenario.empty_world.
Proof.
  apply run_order_independent.
  - intros l. apply reverse_Permutation.
  - intros l. reflexivity.
Defined.

(** X19. A run touches no file of the cache directory but the cache files
    of the chunks it dispatches, and no file of the output directory but
    the map and the timestamp. *)
Theorem run_frame (env : environment) (files : list file_info) (w : world) :
  pool_complete env →
  (∀ name,
     (∀ i, (i < length (chunks_of env files))%nat → name ≠ cache_file i) →
     cache_dir (run env files w).2 !! name = cache_dir w !! name)
  ∧ (∀ name, name ≠ map_file → name ≠ timestamp_file →
       output_dir (run env files w).2 !! name = output_dir w !! name).
Proof.
  intros Hpool.
  destruct (decide (files = [])) as [->|Hfiles].
  { by rewrite run_no_files. }
  set (analyses := (analyze_chunks env (chunks_of env files) w).1).
  destruct (analyze_chunks_effect env (chunks_of env files) w)
    as (rs & Hres & Hids & Hout & _ & Hkeep & Hnew & _).
  assert (∀ a, a ∈ rs → (chunk_id_of a < length (chunks_of env files))%nat) as Hlt.
  { intros a Ha.
    assert (chunk_id_of a ∈ seq 0 (length (chunks_of env files))) as Hin
      by (rewrite <-Hids; by apply list_elem_of_fmap_2).
    apply elem_of_seq in Hin. lia. }
  assert (∀ name,
            (∀ i, (i < length (chunks_of env files))%nat → name ≠ cache_file i) →
            cache_dir (analyze_chunks env (chunks_of env files) w).2 !! name
            = cache_dir w !! name) as Hdispatch.
  { intros name Hname.
    destruct (cache_dir w !! name) as [v|] eqn:Hold; [by apply Hkeep|].
    destruct (cache_dir (analyze_chunks env (chunks_of env files) w).2 !! name)
      as [v|] eqn:Hafter; [|done].
    destruct (Hnew name v Hafter) as [?|(a & Ha & -> & _)]; [congruence|].
    by destruct (Hname (chunk_id_of a) (Hlt a Ha)). }
  destruct (decide (successful_ids analyses = [])) as [Hnone|Hsome].
  - pose proof Hnone as Hall%successful_ids_nil.
    rewrite (run_all_failed env files w Hfiles Hall). cbn [snd].
    split; [done|]. intros name _ _. by rewrite Hout.
  - destruct (run_completed env files w Hfiles Hsome)
      as (w3 & -> & Hout3 & _ & Hcache).
    cbn [snd]. split.
    + intros name Hname. rewrite Hcache, decide_False; [by apply Hdispatch|].
      intros (i & -> & Hi)%list_elem_of_fmap.
      unfold successful_ids in Hi.
      apply list_elem_of_fmap in Hi as (a & -> & [_ Ha]%list_elem_of_filter).
      fold analyses in Ha. unfold analyses in Ha.
      rewrite Hres, (Hpool rs) in Ha.
      by destruct (Hname (chunk_id_of a) (Hlt a Ha)).
    + intros name Hmap Hstamp.
      by rewrite Hout3, !lookup_insert_ne, Hout by done.
Qed.

Lemma run_frame_witness :
  let w := World {[ "notes.txt" := "kept" ]} {[ "README.md" := "kept too" ]} [] in
  let after := (run Scenario.second_call_fails Scenario.two_files w).2 in
  cache_dir after !! "notes.txt" = Some "kept"
  ∧ output_dir after !! "README.md" = Some "kept too".
Proof.
  intros w after.
  destruct (run_frame Scenario.second_call_fails Scenario.two_files w)
    as [Hcache Hout].
  - intros l. apply reverse_Permutation.
  - split.
    + unfold after. rewrite Hcache; [reflexivity|].
      intros i _. unfold cache_file. discriminate.
    + unfold after. rewrite Hout; [reflexivity|discriminate..].
Defined.

(** X30. With no file scanned, or with every result carrying the error
    marker, the run returns nothing, writes no file in the output
    directory, and removes or changes no cache file. A cache file it adds
    is that of a dispatched chunk and holds the stripped reply of a
    backend call that exited with status zero, a reply that begins with
    the marker: where no such reply is given, as with the backend down,
    the cache is left as it was. With no file scanned the world is left
    as it was. *)
Theorem run_whole_failure (env : environment) (files : list file_info)
    (w : world) :
  let analyses := (analyze_chunks env (chunks_of env files) w).1 in
  let after := (run env files w).2 in
  pool_complete env →
  files = [] ∨ Forall (λ a, is_error a = true) analyses →
  (run env files w).1 = None
  ∧ output_dir after = output_dir w
  ∧ (∀ k v, cache_dir w !! k = Some v → cache_dir after !! k = Some v)
  ∧ (∀ k v, cache_dir after !! k = Some v →
       cache_dir w !! k = Some v
       ∨ ∃ i c n stdout stderr,
           chunks_of env files !! i = Some c ∧ k = cache_file i
           ∧ ollama env n (analysis_prompt c) = Completed 0 stdout stderr
           ∧ v = PyStr.strip stdout
           ∧ PyStr.startswith "ERROR:" v = true)
  ∧ ((∀ n prompt stdout stderr,
        ollama env n prompt = Completed 0 stdout stderr →
        PyStr.startswith "ERROR:" (PyStr.strip stdout) = false) →
     cache_dir after = cache_dir w)
  ∧ (files = [] → after = w).
Proof.
  intros analyses after Hpool Hfailed. subst analyses after.
  destruct (decide (files = [])) as [->|Hfiles].
  { rewrite run_no_files. cbn [fst snd]. repeat split; auto. }
  destruct Hfailed as [?|Hall]; [done|].
  rewrite (run_all_failed env files w Hfiles Hall). cbn [fst snd].
  destruct (analyze_chunks_effect env (chunks_of env files) w)
    as (rs & Hres & _ & Hout & _ & Hkeep & Hnew & _).
  assert (∀ k v,
    cache_dir (analyze_chunks env (chunks_of env files) w).2 !! k = Some v →
    cache_dir w !! k = Some v
    ∨ ∃ i c n stdout stderr,
        chunks_of env files !! i = Some c ∧ k = cache_file i
        ∧ ollama env n (analysis_prompt c) = Completed 0 stdout stderr
        ∧ v = PyStr.strip stdout
        ∧ PyStr.startswith "ERROR:" v = true) as Hadded.
  { intros k v Hk.
    destruct (cache_dir w !! k) as [v'|] eqn:Hold.
    { left. apply Hkeep in Hold. congruence. }
    right.
    destruct (analyze_chunks_written env _ w k v Hk)
      as [?|(i & c & n & out & err & Hi & -> & Hreply & ->)]; [congruence|].
    exists i, c, n, out, err. do 4 (split; [done|]).
    destruct (Hnew _ _ Hk) as [?|(a & Ha & _ & -> & _)]; [congruence|].
    rewrite Hres, (Hpool rs), Forall_forall in Hall. by apply Hall. }
  split; [done|]. split; [done|]. split; [done|]. split; [done|].
  split; [|done].
  intros Hnever. apply map_eq. intros k.
  destruct (cache_dir (analyze_chunks env (chunks_of env files) w).2 !! k)
    as [v|] eqn:Hk.
  - destruct (Hadded k v Hk)
      as [?|(i & c & n & out & err & _ & _ & Hreply & -> & Hmarked)]; [done|].
    by rewrite (Hnever _ _ _ _ Hreply) in Hmarked.
  - destruct (cache_dir w !! k) as [v|] eqn:Hold; [|done].
    apply Hkeep in Hold. congruence.
Qed.

Lemma run_whole_failure_witness :
  let env := Scenario.backend_down in
  let w := World {[ "unrelated.md" := "kept" ]} {[ map_file := "old map" ]} [] in
  (run env Scenario.two_files w).1 = None
  ∧ output_dir (run env Scenario.two_files w).2 = output_dir w
  ∧ cache_dir (run env Scenario.two_files w).2 = cache_dir w.
Proof.
  intros env w.
  destruct (run_whole_failure env Scenario.two_files w)
    as (Hnone & Hout & _ & _ & Hcache & _).
  - intros l. reflexivity.
  - right. by apply (bool_decide_unpack _); vm_compute.
  - split; [exact Hnone|]. split; [exact Hout|].
    apply Hcache. intros n prompt stdout stderr Hreply. discriminate Hreply.
Defined.

(** ** The run when the tokenizer raises *)

Section raising_facts.
Context (env : environment) (encode_raises : string → bool).

Lemma raising_synthesize_map (analyses : list analysis) (w : world) :
  let summaries := combined_summaries (sort_analyses analyses) in
  Raising.synthesize_map env encode_raises analyses w
  = if encode_raises summaries
    then (Raises "ValueError",
          World (cache_dir w) (output_dir w) (trace w ++ [CountTokens summaries]))
    else (Returns (synthesize_map env analyses w).1,
          (synthesize_map env analyses w).2).
Proof.
  intros summaries.
  unfold Raising.synthesize_map, Raising.count_tokens, synthesize_map.
  fold summaries.
  destruct (encode_raises summaries); [done|].
  unfold count_tokens, log, mbind, M_bind, mret, M_ret. cbn zeta.
  destruct (count_tokens_of env summaries >? 100000); [done|].
  destruct (ollama_run env _ _) as [[rc out err| |e] w1]; [|done..].
  by destruct (rc =? 0).
Qed.

Lemma bind_split {A B} (m : M A) (k : A → M B) (w : world) :
  (m ≫= k) w = k (m w).1 (m w).2.
Proof. unfold mbind, M_bind. by destruct (m w). Qed.

(** The run with the exception, by cases. *)
Lemma raising_run (files : list file_info) (w : world) :
  let analyses := (analyze_chunks env (chunks_of env files) w).1 in
  let dispatched := (analyze_chunks env (chunks_of env files) w).2 in
  let summaries := combined_summaries (sort_analyses analyses) in
  Raising.run env encode_raises files w
  = if decide (files ≠ [] ∧ successful_ids analyses ≠ []
               ∧ encode_raises summaries = true)
    then (Raises "ValueError",
          World (cache_dir dispatched) (output_dir dispatched)
            (trace dispatched ++ [CountTokens summaries]))
    else (Returns (run env files w).1, (run env files w).2).
Proof.
  intros analyses dispatched summaries.
  destruct files as [|f files].
  { rewrite decide_False by tauto. done. }
  unfold Raising.run, run.
  change (Packer.create_chunks (max_tokens_per_chunk env) (f :: files))
    with (chunks_of env (f :: files), Packer.sort_files (f :: files)).
  cbn iota. rewrite !bind_split. fold analyses dispatched.
  destruct (successful_ids analyses) as [|i ids] eqn:Hids.
  { rewrite decide_False by tauto. done. }
  rewrite !bind_split, raising_synthesize_map. cbn zeta. fold summaries.
  destruct (encode_raises summaries) eqn:Hraises.
  - rewrite decide_True by done. done.
  - rewrite decide_False by (intros (_ & _ & ?); congruence).
    cbn [fst snd]. by repeat (rewrite bind_split; cbn beta).
Qed.

Lemma successful_ids_Exists (analyses : list analysis) :
  successful_ids analyses ≠ [] ↔ Exists (λ a, is_error a = false) analyses.
Proof.
  unfold successful_ids. rewrite Exists_exists. split.
  - intros Hne.
    destruct (filter (λ a, is_error a = false) analyses) as [|a l] eqn:Hf;
      [done|].
    assert (a ∈ filter (λ a, is_error a = false) analyses) as Ha
      by (rewrite Hf; apply list_elem_of_here).
    apply list_elem_of_filter in Ha as [Hok Hin]. eauto.
  - intros (a & Ha & Hok) Hnil. apply fmap_nil_inv in Hnil.
    assert (a ∈ filter (λ a, is_error a = false) analyses) as Hin
      by (by apply list_elem_of_filter).
    rewrite Hnil in Hin. by apply elem_of_nil in Hin.
Qed.

(** X15. After a run that returns, whether it wrote the map or not, the
    cache file of a dispatched chunk, if there is one, holds a text with
    the error marker: no analysis that succeeded is left in the cache.
    After a run that raises, which it does when the tokenizer raises on
    the summaries, every analysis that succeeded is in the cache, the
    cache being the one the dispatch left, and no file was written. *)
Theorem run_leaves_only_errors_cached (files : list file_info) (w : world) :
  let analyses := (analyze_chunks env (chunks_of env files) w).1 in
  let result := Raising.run env encode_raises files w in
  pool_complete env →
  (∀ value i text,
     result.1 = Returns value →
     (i < length (chunks_of env files))%nat →
     cache_dir result.2 !! cache_file i = Some text →
     PyStr.startswith "ERROR:" text = true)
  ∧ (∀ exception,
       result.1 = Raises exception →
       Exists (λ a, is_error a = false) analyses
       ∧ Forall (λ a, is_error a = false →
                      cache_dir result.2 !! cache_file (chunk_id_of a)
                      = Some (text_of a)) analyses
       ∧ cache_dir result.2
         = cache_dir (analyze_chunks env (chunks_of env files) w).2
       ∧ output_dir result.2 = output_dir w).
Proof.
  intros analyses result Hpool. subst result. rewrite raising_run. cbn zeta.
  fold analyses.
  destruct (decide _) as [(Hfiles & Hsome & Hraises)|Hnot]; cbn [fst snd].
  - split; [done|]. intros _ _.
    split; [by apply successful_ids_Exists|].
    split; [apply (analyze_chunks_ok_cached env _ w Hpool)|].
    split; [done|].
    by destruct (analyze_chunks_effect env (chunks_of env files) w)
      as (rs & _ & _ & Hout & _).
  - split; [|done]. intros _ i text _ Hi Hcached.
    destruct (dispatch_result_of_id env (chunks_of env files) w i Hpool Hi)
      as (a & Ha & <-).
    rewrite (run_cache_of_chunk env files w a Hpool Ha) in Hcached.
    destruct (is_error a) eqn:Herr; [|done].
    by rewrite (dispatch_cache_text env _ w a text Hpool Ha Hcached).
Qed.

(** X16. A run writes the map and the timestamp together or neither. It
    returns nothing and leaves the output directory as it was when no
    file was scanned or every result carries the error marker; otherwise
    it raises, the output directory as it was, when the tokenizer raises
    on the summaries, and else returns the output path and has written
    both files, the map being the synthesizer's. Where the tokenizer
    returns on the summaries the run is that of [run]. *)
Theorem run_writes_both_or_neither (files : list file_info) (w : world) :
  let analyses := (analyze_chunks env (chunks_of env files) w).1 in
  let dispatched := (analyze_chunks env (chunks_of env files) w).2 in
  let summaries := combined_summaries (sort_analyses analyses) in
  let result := Raising.run env encode_raises files w in
  (result.1 = Returns None
   ∧ (files = [] ∨ Forall (λ a, is_error a = true) analyses)
   ∧ output_dir result.2 = output_dir w
   ∨ result.1 = Raises "ValueError"
     ∧ files ≠ []
     ∧ Exists (λ a, is_error a = false) analyses
     ∧ encode_raises summaries = true
     ∧ output_dir result.2 = output_dir w
   ∨ result.1 = Returns (Some (output_path env))
     ∧ files ≠ []
     ∧ Exists (λ a, is_error a = false) analyses
     ∧ encode_raises summaries = false
     ∧ ∃ final_map,
         (Raising.synthesize_map env encode_raises analyses dispatched).1
         = Returns final_map
         ∧ output_dir result.2
           = <[timestamp_file := now_isoformat env]>
               (<[map_file := final_map]> (output_dir w)))
  ∧ (encode_raises summaries = false →
     result = (Returns (run env files w).1, (run env files w).2)).
Proof.
  intros analyses dispatched summaries result. subst result.
  rewrite raising_run. cbn zeta. fold analyses dispatched summaries.
  destruct (analyze_chunks_effect env (chunks_of env files) w)
    as (rs & _ & _ & Hout & _).
  fold dispatched in Hout.
  destruct (decide _) as [(Hfiles & Hsome & Hraises)|Hnot]; cbn [fst snd].
  { split; [|congruence]. right. left.
    split; [done|]. split; [done|]. split; [by apply successful_ids_Exists|].
    done. }
  split; [|done].
  destruct (decide (files = [])) as [->|Hfiles].
  { left. rewrite run_no_files. auto. }
  destruct (decide (successful_ids analyses = [])) as [Hnone|Hsome].
  { left. pose proof Hnone as Hall%successful_ids_nil.
    rewrite (run_all_failed env files w Hfiles Hall). auto. }
  right. right.
  assert (encode_raises summaries = false) as Hreturns.
  { destruct (encode_raises summaries) eqn:Hr; [|done]. by destruct Hnot. }
  destruct (run_completed env files w Hfiles Hsome) as (w3 & -> & Hout3 & _).
  cbn [fst snd]. split; [done|]. split; [done|].
  split; [by apply successful_ids_Exists|]. split; [done|].
  exists (synthesize_map env analyses dispatched).1. split.
  - rewrite raising_synthesize_map. cbn zeta. fold summaries.
    by rewrite Hreturns.
  - rewrite Hout3. unfold dispatched in Hout |- *. by rewrite Hout.
Qed.

End raising_facts.

Lemma run_leaves_only_errors_cached_witness :
  let raised :=
    Raising.run Scenes.model_says_token Scenes.special_token
      Scenario.two_files Scenario.empty_world in
  let returned :=
    Raising.run Scenario.second_call_fails Scenes.special_token
      Scenario.two_files Scenes.failed_before in
  (raised.1 = Raises "ValueError"
   ∧ cache_dir raised.2 !! cache_file 0 = Some "done <|endoftext|>"
   ∧ output_dir raised.2 = ∅)
  ∧ (returned.1 = Returns (Some "docs/CODEBASE_MAP.md")
     ∧ cache_dir returned.2 !! cache_file 0
       = Some "ERROR: Analysis timed out (>5 min)"
     ∧ PyStr.startswith "ERROR:" "ERROR: Analysis timed out (>5 min)" = true).
Proof.
  intros raised returned. split.
  - destruct (run_leaves_only_errors_cached Scenes.model_says_token
                Scenes.special_token Scenario.two_files Scenario.empty_world)
      as [_ Hraises]; [intros l; reflexivity|].
    destruct (Hraises "ValueError") as (_ & Hcached & _ & Hout);
      [by vm_compute|].
    split; [by vm_compute|]. split; [|exact Hout].
    rewrite Forall_forall in Hcached.
    apply (Hcached (0%nat, "done <|endoftext|>", false)); [|reflexivity].
    by apply (bool_decide_unpack _); vm_compute.
  - destruct (run_leaves_only_errors_cached Scenario.second_call_fails
                Scenes.special_token Scenario.two_files Scenes.failed_before)
      as [Hreturns _]; [intros l; apply reverse_Permutation|].
    split; [by vm_compute|]. split; [by vm_compute|].
    apply (Hreturns (Some "docs/CODEBASE_MAP.md") 0%nat).
    + by vm_compute.
    + vm_compute. lia.
    + by vm_compute.
Defined.

(** ** More on text *)

Lemma prefix_nil (s : string) : String.prefix "" s = true.
Proof. by destruct s. Qed.

Lemma prefix_app (p s : string) :
  String.prefix p s = true ↔ ∃ post, s = p +:+ post.
Proof.
  revert s. induction p as [|a p IH]; intros s.
  { rewrite prefix_nil. split; [by exists s|done]. }
  destruct s as [|b s]; simpl.
  { split; [done|]. by intros (post & ?). }
  destruct (Ascii.ascii_dec a b) as [->|Hne].
  - rewrite IH. split; intros (post & Hs); exists post.
    + by rewrite string_app_cons, <-Hs.
    + rewrite string_app_cons in Hs. by injection Hs.
  - split; [done|]. intros (post & Hs). rewrite string_app_cons in Hs.
    injection Hs as ??. congruence.
Qed.

Lemma is_in_nil (p : string) : PyText.is_in p "" = String.prefix p "" || false.
Proof. reflexivity. Qed.

Lemma is_in_cons (p : string) (c : Ascii.ascii) (s : string) :
  PyText.is_in p (String c s) = String.prefix p (String c s) || PyText.is_in p s.
Proof. reflexivity. Qed.

Lemma is_in_contains (p s : string) : PyText.is_in p s = true ↔ contains s p.
Proof.
  split.
  - induction s as [|c s IH].
    + rewrite is_in_nil, orb_true_iff, prefix_app.
      intros [(post & ->)|?]; [|done]. by exists "", post.
    + rewrite is_in_cons, orb_true_iff, prefix_app.
      intros [(post & ->)|Hin]; [by exists "", post|].
      destruct (IH Hin) as (pre & post & ->). by exists (String c pre), post.
  - intros (pre & post & ->). induction pre as [|c pre IH].
    + rewrite string_app_nil_l.
      assert (String.prefix p (p +:+ post) = true) as Hprefix
        by (apply prefix_app; by exists post).
      destruct (p +:+ post) eqn:Heq.
      * by rewrite is_in_nil, Hprefix.
      * by rewrite is_in_cons, Hprefix.
    + rewrite string_app_cons, is_in_cons, IH. apply orb_true_r.
Qed.

Lemma split_go_nonempty (word s : string) :
  Forall (λ x, x ≠ "") (PyText.split_go word s).
Proof.
  revert word. induction s as [|c s IH]; intros word; simpl.
  { destruct word; [constructor|]. by repeat constructor. }
  destruct (PyStr.isspace c); [|apply IH].
  destruct word; simpl; [apply IH|]. constructor; [done|apply IH].
Qed.

Lemma split_go_all_space (s : string) :
  all_space s = true → PyText.split_go "" s = [].
Proof.
  induction s as [|c s IH]; [done|]. simpl.
  intros [-> Hs]%andb_true_iff. simpl. by apply IH.
Qed.

Lemma split_go_word (word s : string) :
  word ≠ "" → PyText.split_go word s ≠ [].
Proof.
  revert word. induction s as [|c s IH]; intros word Hword; simpl.
  { by destruct word. }
  destruct (PyStr.isspace c).
  - by destruct word.
  - apply IH. by destruct word.
Qed.

Lemma split_go_not_all_space (word s : string) :
  all_space s = false → PyText.split_go word s ≠ [].
Proof.
  revert word. induction s as [|c s IH]; intros word; [done|]. simpl.
  destruct (PyStr.isspace c); simpl.
  - intros Hs. destruct word; simpl; [by apply IH|done].
  - intros _. apply split_go_word. by destruct word.
Qed.

Lemma split_nil (s : string) : PyText.split s = [] ↔ all_space s = true.
Proof.
  unfold PyText.split. split; [|apply split_go_all_space].
  destruct (all_space s) eqn:Hs; [done|].
  intros Hnil. by destruct (split_go_not_all_space "" s Hs).
Qed.

Lemma lstrip_all_space (s : string) :
  PyStr.lstrip s = "" ↔ all_space s = true.
Proof.
  induction s as [|c s IH]; [done|]. simpl.
  destruct (PyStr.isspace c); simpl; [done|]. split; [done|discriminate].
Qed.

Lemma lstrip_stripped (s : string) :
  all_space (PyStr.lstrip s) = true → PyStr.lstrip s = "".
Proof.
  induction s as [|c s IH]; [done|]. simpl.
  destruct (PyStr.isspace c) eqn:Hc; [done|]. simpl. by rewrite Hc.
Qed.

Lemma rev_app_all_space (s1 s2 : string) :
  all_space (String.rev_app s1 s2)
  = all_space s1 && all_space s2.
Proof.
  revert s2. induction s1 as [|c s1 IH]; intros s2; [done|]. simpl.
  rewrite IH. simpl. by destruct (PyStr.isspace c), (all_space s1).
Qed.

Lemma lstrip_suffix (s : string) : ∃ spaces, s = spaces +:+ PyStr.lstrip s
                                             ∧ all_space spaces = true.
Proof.
  induction s as [|c s (spaces & Hs & Hspaces)]; [by exists ""|].
  simpl. destruct (PyStr.isspace c) eqn:Hc.
  - exists (String c spaces). rewrite string_app_cons, <-Hs. simpl.
    by rewrite Hc, Hspaces.
  - by exists "".
Qed.

Lemma all_space_app (s t : string) :
  all_space (s +:+ t) = all_space s && all_space t.
Proof.
  induction s as [|c s IH]; [done|]. rewrite string_app_cons. simpl.
  by rewrite IH, andb_assoc.
Qed.

Lemma strip_all_space (s : string) :
  PyStr.strip s = "" ↔ all_space s = true.
Proof.
  unfold PyStr.strip, PyStr.rstrip, String.rev.
  destruct (lstrip_suffix s) as (spaces & Hs & Hspaces).
  assert (all_space s = all_space (PyStr.lstrip s)) as ->.
  { rewrite Hs at 1. rewrite all_space_app, Hspaces. done. }
  set (t := PyStr.lstrip s).
  destruct (lstrip_suffix (String.rev_app t "")) as (spaces' & Ht & Hspaces').
  set (u := PyStr.lstrip (String.rev_app t "")) in *.
  assert (all_space t = all_space u) as ->.
  { pose proof (rev_app_all_space t "") as Hrev.
    rewrite Ht, all_space_app, Hspaces' in Hrev. simpl in Hrev.
    by rewrite andb_true_r in Hrev. }
  assert (all_space (String.rev_app u "") = all_space u) as Hrevu.
  { rewrite rev_app_all_space. simpl. by rewrite andb_true_r. }
  split.
  - intros Hnil. by rewrite <-Hrevu, Hnil.
  - intros Hu. apply lstrip_stripped in Hu. fold u in Hu. by rewrite Hu.
Qed.

(** ** The scanner *)

(** X20. A path is ignored exactly when one of the patterns occurs in it,
    as a piece of text, anywhere in the path. *)
Theorem should_ignore_spec (ignore_patterns : list string) (path_str : string) :
  should_ignore ignore_patterns path_str = true
  ↔ ∃ pattern, pattern ∈ ignore_patterns ∧ contains path_str pattern.
Proof.
  unfold should_ignore. rewrite existsb_exists.
  split; intros (pattern & Hin & Hmatch); exists pattern.
  - split; [by apply list_elem_of_In|by apply is_in_contains].
  - split; [by apply list_elem_of_In|by apply is_in_contains].
Qed.

(** X21. Patterns are not globs: a pattern with a character that the path
    does not have, such as the star of a pattern for a file suffix, does
    not exclude the path. *)
Theorem should_ignore_literal (pattern path_str : string) (c : Ascii.ascii) :
  PyText.is_in (String c "") pattern = true →
  PyText.is_in (String c "") path_str = false →
  should_ignore [pattern] path_str = false.
Proof.
  intros Hpattern Hpath. unfold should_ignore. simpl. rewrite orb_false_r.
  destruct (PyText.is_in pattern path_str) eqn:Hin; [|done].
  apply is_in_contains in Hin, Hpattern.
  assert (contains path_str (String c "")) as Hc by (by eapply contains_trans).
  apply is_in_contains in Hc. congruence.
Qed.

Lemma should_ignore_literal_witness :
  should_ignore ["*.pyc"] "/code/pkg/module.pyc" = false.
Proof.
  apply (should_ignore_literal "*.pyc" "/code/pkg/module.pyc"
           (Ascii.ascii_of_nat 42)); reflexivity.
Defined.

Lemma total_tokens_cons (f : file_info) (c : chunk) :
  total_tokens (f :: c) = tokens f + total_tokens c.
Proof. reflexivity. Qed.

Lemma Scan_eq (files files' : list file_info) (t t' k k' : Z) :
  files = files' → t = t' → k = k' → Scan files t k = Scan files' t' k'.
Proof. by intros -> -> ->. Qed.

Lemma omap_cons_match {A B} (f : A → option B) (x : A) (l : list A) :
  omap f (x :: l)
  = match f x with Some y => y :: omap f l | None => omap f l end.
Proof. reflexivity. Qed.

Section scanner_facts.
Context (env : environment) (encode_raises : string → bool)
  (ignore_patterns : list string).

Lemma read_at_Some (e : dir_entry) (text : string) :
  read_at ignore_patterns e = Some text
  ↔ entry_is_file e = true
    ∧ should_ignore ignore_patterns (entry_path e) = false
    ∧ entry_read_text e = Some text.
Proof.
  unfold read_at.
  destruct (entry_is_file e), (should_ignore ignore_patterns (entry_path e));
    cbn [andb negb]; intuition congruence.
Qed.

Lemma scanned_file_Some (e : dir_entry) (f : file_info) :
  scanned_file env encode_raises ignore_patterns e = Some f
  ↔ read_at ignore_patterns e = Some (content f)
    ∧ encode_raises (content f) = false
    ∧ f = FileInfo (entry_relative_path e) (entry_path e)
            (count_tokens_of env (content f)) (content f).
Proof.
  unfold scanned_file.
  destruct (read_at ignore_patterns e) as [text|]; cbn [mbind option_bind];
    [|intuition congruence].
  destruct (encode_raises text) eqn:Hraises.
  - split; [done|]. intros ([= ->] & ? & _). congruence.
  - split.
    + by intros [= <-].
    + intros ([= ->] & _ & ->). done.
Qed.

Lemma scanned_files_Forall (P : file_info → Prop) (entries : list dir_entry) :
  (∀ e f, scanned_file env encode_raises ignore_patterns e = Some f → P f) →
  Forall P (omap (scanned_file env encode_raises ignore_patterns) entries).
Proof.
  intros HP. induction entries as [|e entries IH]; [constructor|].
  rewrite omap_cons_match.
  destruct (scanned_file env encode_raises ignore_patterns e) as [f|] eqn:He;
    [|done].
  constructor; [by eapply HP|done].
Qed.

(** What one iteration does: where a text is read the tokenizer is called
    on it, and the file is kept when the call returns. *)
Lemma scan_entry_effect (s : scan) (e : dir_entry) (w : world) :
  scan_entry env encode_raises ignore_patterns s e w
  = (match scanned_file env encode_raises ignore_patterns e with
     | Some f =>
         Scan (scan_files s ++ [f]) (scan_total_tokens s + tokens f)
           (scan_skipped s)
     | None => Scan (scan_files s) (scan_total_tokens s) (scan_skipped s + 1)
     end,
     match read_at ignore_patterns e with
     | Some text =>
         World (cache_dir w) (output_dir w) (trace w ++ [CountTokens text])
     | None => w
     end).
Proof.
  unfold scan_entry, scanned_file, read_at.
  destruct (entry_is_file e), (should_ignore ignore_patterns (entry_path e));
    cbn [negb orb andb]; try done.
  destruct (entry_read_text e) as [text|]; [|done]. cbn [mbind option_bind].
  unfold Raising.count_tokens, count_tokens, log, mbind, M_bind, mret, M_ret.
  by destruct (encode_raises text).
Qed.

(** What the loop does, from any state. *)
Lemma scan_loop_effect (entries : list dir_entry) (s : scan) (w : world) :
  let found := omap (scanned_file env encode_raises ignore_patterns) entries in
  scan_loop env encode_raises ignore_patterns entries s w
  = (Scan (scan_files s ++ found)
       (scan_total_tokens s + total_tokens found)
       (scan_skipped s + Z.of_nat (length entries) - Z.of_nat (length found)),
     World (cache_dir w) (output_dir w)
       (trace w ++ (CountTokens <$> omap (read_at ignore_patterns) entries))).
Proof.
  revert s w. induction entries as [|e entries IH]; intros s w; cbn zeta.
  { simpl. rewrite !app_nil_r. unfold total_tokens. simpl.
    destruct s, w. simpl. apply (f_equal2 pair); [|done].
    apply Scan_eq; [done|lia..]. }
  cbn [scan_loop]. unfold mbind, M_bind. rewrite scan_entry_effect.
  rewrite IH, !omap_cons_match.
  apply (f_equal2 pair).
  - destruct (scanned_file env encode_raises ignore_patterns e) as [f|];
      cbn [scan_files scan_total_tokens scan_skipped].
    + rewrite total_tokens_cons, <-!(assoc_L (++)).
      apply Scan_eq; [done|lia|cbn [length]; lia].
    + apply Scan_eq; [done|lia|cbn [length]; lia].
  - destruct (read_at ignore_patterns e) as [text|]; [|done].
    cbn [cache_dir output_dir trace]. by rewrite fmap_cons, <-(assoc_L (++)).
Qed.

Lemma contents_of_scanned (entries : list dir_entry) :
  content <$> omap (scanned_file env encode_raises ignore_patterns) entries
  = filter (λ text, encode_raises text = false)
      (omap (read_at ignore_patterns) entries).
Proof.
  induction entries as [|e entries IH]; [done|].
  rewrite !omap_cons_match. unfold scanned_file at 1.
  destruct (read_at ignore_patterns e) as [text|]; cbn [mbind option_bind];
    [|done].
  rewrite filter_cons.
  destruct (encode_raises text) eqn:Hraises.
  - rewrite decide_False by congruence. done.
  - rewrite decide_True by done. by rewrite fmap_cons, IH.
Qed.

(** X22. The scan returns, in the order of the listing, the files of the
    paths that are regular files, are not ignored, can be read and on
    whose text the tokenizer returns, each with its paths, its text and
    the token count of its text; it returns the sum of these counts as the
    total, and the skipped paths are all the others. *)
Theorem scan_codebase_result (entries : list dir_entry) (w : world) :
  let found := omap (scanned_file env encode_raises ignore_patterns) entries in
  (scan_codebase env encode_raises ignore_patterns entries w).1
  = (found, total_tokens found)
  ∧ Forall (λ e, ∀ f,
      scanned_file env encode_raises ignore_patterns e = Some f
      ↔ entry_is_file e = true
        ∧ should_ignore ignore_patterns (entry_path e) = false
        ∧ entry_read_text e = Some (content f)
        ∧ encode_raises (content f) = false
        ∧ f = FileInfo (entry_relative_path e) (entry_path e)
                (count_tokens_of env (content f)) (content f)) entries
  ∧ Forall (λ f, tokens f = count_tokens_of env (content f)
                 ∧ encode_raises (content f) = false) found
  ∧ scan_skipped
      (scan_loop env encode_raises ignore_patterns entries (Scan [] 0 0) w).1
    + Z.of_nat (length found) = Z.of_nat (length entries).
Proof.
  intros found. unfold scan_codebase, mbind, M_bind, mret, M_ret.
  rewrite scan_loop_effect. fold found. cbn [fst snd scan_files
    scan_total_tokens scan_skipped app]. rewrite Z.add_0_l.
  split; [done|]. split.
  { apply Forall_forall. intros e _ f.
    rewrite scanned_file_Some, read_at_Some. tauto. }
  split; [|lia].
  apply scanned_files_Forall. intros e f (_ & Hreturns & ->)%scanned_file_Some.
  done.
Qed.

(** X23. The scan writes no file and calls no backend. It calls the
    tokenizer once on the text of every path that is a regular file, is
    not ignored and can be read, in the order of the listing, and on
    nothing else; the files it returns are those on whose text the call
    returned. No file it returns has a path in which a pattern occurs. *)
Theorem scan_codebase_effect (entries : list dir_entry) (w : world) :
  let files :=
    (scan_codebase env encode_raises ignore_patterns entries w).1.1 in
  let after := (scan_codebase env encode_raises ignore_patterns entries w).2 in
  let texts := omap (read_at ignore_patterns) entries in
  cache_dir after = cache_dir w
  ∧ output_dir after = output_dir w
  ∧ trace after = trace w ++ (CountTokens <$> texts)
  ∧ Forall (λ e, ∀ text,
      read_at ignore_patterns e = Some text
      ↔ entry_is_file e = true
        ∧ should_ignore ignore_patterns (entry_path e) = false
        ∧ entry_read_text e = Some text) entries
  ∧ content <$> files = filter (λ text, encode_raises text = false) texts
  ∧ backend_calls after = backend_calls w
  ∧ Forall (λ f, should_ignore ignore_patterns (full_path f) = false) files.
Proof.
  intros files after texts. subst files after texts.
  unfold scan_codebase, mbind, M_bind, mret, M_ret.
  rewrite scan_loop_effect. cbn [fst snd scan_files cache_dir output_dir trace app].
  split; [done|]. split; [done|]. split; [done|]. split.
  { apply Forall_forall. intros e _ text. apply read_at_Some. }
  split; [apply contents_of_scanned|]. split.
  - rewrite backend_calls_trace_app.
    assert (omap (λ e, match e with OllamaRun p => Some p | CountTokens _ => None end)
              (CountTokens <$> omap (read_at ignore_patterns) entries)
            = []) as ->; [|by rewrite app_nil_r].
    induction (omap (read_at ignore_patterns) entries); [done|]. done.
  - apply scanned_files_Forall.
    intros e f (Hread & _ & ->)%scanned_file_Some.
    apply read_at_Some in Hread as (_ & Hkept & _). done.
Qed.

(** X24. When every path is a directory, is ignored or cannot be read,
    the whole run returns nothing and leaves the world as it was: no
    backend call, no token count, no file written. *)
Theorem run_codebase_nothing_scanned (entries : list dir_entry) (w : world) :
  Forall (λ e, entry_is_file e = false
               ∨ should_ignore ignore_patterns (entry_path e) = true
               ∨ entry_read_text e = None) entries →
  run_codebase env encode_raises ignore_patterns entries w = (Returns None, w).
Proof.
  intros Hall.
  assert (omap (read_at ignore_patterns) entries = []) as Hread.
  { induction Hall as [|e entries He _ IH]; [done|].
    rewrite omap_cons_match, IH. unfold read_at.
    destruct He as [He|[He|He]]; rewrite He;
      [done|by rewrite andb_false_r|by destruct (_ && _)]. }
  assert (omap (scanned_file env encode_raises ignore_patterns) entries = [])
    as Hfound.
  { apply fmap_nil_inv with (f := content).
    by rewrite contents_of_scanned, Hread. }
  unfold run_codebase, scan_codebase, mbind, M_bind, mret, M_ret.
  rewrite scan_loop_effect, Hfound, Hread. cbn. rewrite app_nil_r. by destruct w.
Qed.

End scanner_facts.

Lemma run_codebase_nothing_scanned_witness :
  run_codebase Scenario.second_call_fails Scenes.special_token
    [".git"; "node_modules"]
    [DirEntry "/home/u/node_modules/pkg/a.py" "a.py" true (Some "x = 1");
     DirEntry "/home/u/node_modules/pkg/lib" "lib" false None]
    Scenario.empty_world
  = (Returns None, Scenario.empty_world).
Proof.
  apply run_codebase_nothing_scanned.
  constructor; [right; left; reflexivity|].
  constructor; [left; reflexivity|constructor].
Defined.

(** ** The choice of the model *)

Lemma index_0_split (line : string) :
  index_0 (PyText.split line)
  = match head (PyText.split line) with
    | Some model_name => Returns model_name
    | None => Raises "IndexError"
    end.
Proof. by destruct (PyText.split line). Qed.

Lemma head_split_blank (line : string) :
  PyStr.is_empty (PyStr.strip line) = true ↔ head (PyText.split line) = None.
Proof.
  assert (PyStr.is_empty (PyStr.strip line) = true ↔ PyStr.strip line = "") as ->
    by (by destruct (PyStr.strip line)).
  rewrite strip_all_space, <-split_nil. by destruct (PyText.split line).
Qed.

(** The loop over the lines for one preferred name: it does not raise,
    and it returns the first listed name that matches, if there is one. *)
Lemma first_match_spec (preferred : string) (lines : list string) :
  (∃ model_name,
     first_match preferred lines = Returns (Some model_name)
     ∧ ∃ line, line ∈ lines ∧ head (PyText.split line) = Some model_name
               ∧ PyText.is_in preferred (PyText.lower model_name) = true)
  ∨ first_match preferred lines = Returns None
    ∧ ∀ line, line ∈ lines → ¬ lists_match preferred line.
Proof.
  induction lines as [|line lines IH].
  { right. split; [done|]. by intros line ?%elem_of_nil. }
  cbn [first_match]. rewrite index_0_split.
  destruct (PyStr.is_empty (PyStr.strip line)) eqn:Hblank.
  - apply head_split_blank in Hblank.
    destruct IH as [(m & Hm & line' & Hin & Hhead & Hmatch)|[Hnone Hno]].
    + left. exists m. split; [done|]. exists line'.
      split; [by apply list_elem_of_further|done].
    + right. split; [done|]. intros line' [->|Hin]%elem_of_cons; [|by apply Hno].
      intros (m & Hhead & _). congruence.
  - destruct (head (PyText.split line)) as [m|] eqn:Hhead.
    2:{ apply head_split_blank in Hhead. congruence. }
    destruct (PyText.is_in preferred (PyText.lower m)) eqn:Hmatch.
    + left. exists m. split; [done|]. exists line.
      split; [apply list_elem_of_here|done].
    + destruct IH as [(m' & Hm & line' & Hin & Hhead' & Hmatch')|[Hnone Hno]].
      * left. exists m'. split; [done|]. exists line'.
        split; [by apply list_elem_of_further|done].
      * right. split; [done|].
        intros line' [->|Hin]%elem_of_cons; [|by apply Hno].
        intros (m' & Hhead' & Hmatch'). congruence.
Qed.

(** The loop over the preferred names: it does not raise, and it returns
    a name that matches the first preferred name that any line matches. *)
Lemma first_preferred_spec (names lines : list string) :
  (∃ model_name j q,
     first_preferred names lines = Returns (Some model_name)
     ∧ names !! j = Some q
     ∧ PyText.is_in q (PyText.lower model_name) = true
     ∧ (∃ line, line ∈ lines ∧ head (PyText.split line) = Some model_name)
     ∧ ∀ j' q' line, (j' < j)%nat → names !! j' = Some q' → line ∈ lines →
         ¬ lists_match q' line)
  ∨ first_preferred names lines = Returns None
    ∧ ∀ q line, q ∈ names → line ∈ lines → ¬ lists_match q line.
Proof.
  induction names as [|p names IH].
  { right. split; [done|]. by intros q line ?%elem_of_nil. }
  cbn [first_preferred].
  destruct (first_match_spec p lines)
    as [(m & -> & line & Hin & Hhead & Hmatch)|[-> Hno]].
  - left. exists m, 0%nat, p. split; [done|]. split; [done|]. split; [done|].
    split; [by exists line|]. intros j' q' line' Hj'. lia.
  - destruct IH as [(m & j & q & -> & Hq & Hmatch & Hline & Hmin)|[-> Hnone]].
    + left. exists m, (S j), q. split; [done|]. split; [done|]. split; [done|].
      split; [done|]. intros [|j'] q' line' Hj' Hq' Hin.
      * injection Hq' as <-. by apply Hno.
      * apply (Hmin j' q' line'); [lia|done..].
    + right. split; [done|].
      intros q line [->|Hq]%elem_of_cons Hin; [by apply Hno|by apply Hnone].
Qed.

Lemma head_split_nonempty (line model_name : string) :
  head (PyText.split line) = Some model_name → model_name ≠ "".
Proof.
  intros Hhead. pose proof (split_go_nonempty "" line) as Hall.
  fold (PyText.split line) in Hall.
  destruct (PyText.split line) as [|m l]; [done|].
  injection Hhead as <-. by apply Forall_cons in Hall as [? _].
Qed.

(** What [select_model] does on the lines under the header. *)
Lemma select_model_spec (lines : list string) :
  match select_model lines with
  | Returns None => lines = []
  | Returns (Some model_name) =>
      model_name ≠ ""
      ∧ (∃ line, line ∈ lines ∧ head (PyText.split line) = Some model_name)
      ∧ ∀ i p line, priority !! i = Some p → line ∈ lines → lists_match p line →
          ∃ j q, (j ≤ i)%nat ∧ priority !! j = Some q
                 ∧ PyText.is_in q (PyText.lower model_name) = true
  | Raises e =>
      e = "IndexError"
      ∧ (∃ first rest, lines = first :: rest ∧ all_space first = true)
      ∧ ∀ p line, p ∈ priority → line ∈ lines → ¬ lists_match p line
  end.
Proof.
  destruct lines as [|first rest]; [done|]. cbn [select_model].
  destruct (first_preferred_spec priority (first :: rest))
    as [(m & j & q & -> & Hq & Hmatch & (line & Hin & Hhead) & Hmin)|[-> Hnone]].
  - split; [by eapply head_split_nonempty|]. split; [by exists line|].
    intros i p line' Hp Hin' Hlists.
    destruct (decide (j ≤ i)%nat) as [Hle|Hgt]; [by exists j, q|].
    destruct (Hmin i p line'); [lia|done..].
  - rewrite index_0_split.
    destruct (head (PyText.split first)) as [m|] eqn:Hhead.
    + split; [by eapply head_split_nonempty|].
      split; [exists first; split; [apply list_elem_of_here|done]|].
      intros i p line Hp Hin Hlists.
      destruct (Hnone p line); [by eapply list_elem_of_lookup_2|done..].
    + split; [done|]. split; [|done]. exists first, rest. split; [done|].
      apply split_nil. by destruct (PyText.split first).
Qed.

(** X25. A model name that [_check_ollama] returns is never empty and is
    the first word of one of the lines of the listing under its header. *)
Theorem check_ollama_returns_listed (result : list_outcome) (model_name : string) :
  _check_ollama result = Returns (Some model_name) →
  model_name ≠ ""
  ∧ ∃ stdout line,
      result = Listed 0 stdout
      ∧ line ∈ listed_lines stdout
      ∧ head (PyText.split line) = Some model_name.
Proof.
  destruct result as [rc stdout| | |e]; cbn [_check_ollama]; [|done..].
  destruct (Z.eqb_spec rc 0) as [->|Hrc]; cbn [negb]; [|done].
  intros Hselect. pose proof (select_model_spec (listed_lines stdout)) as Hspec.
  unfold listed_lines in Hspec. rewrite Hselect in Hspec.
  destruct Hspec as (Hnonempty & (line & Hin & Hhead) & _).
  split; [done|]. by exists stdout, line.
Qed.

(** X26. The preference order is kept: when a listed name matches a
    preferred name, the name returned matches that preferred name or one
    that comes before it in the list of preferences. *)
Theorem check_ollama_prefers (stdout model_name : string) (i : nat)
    (preferred line : string) :
  _check_ollama (Listed 0 stdout) = Returns (Some model_name) →
  priority !! i = Some preferred →
  line ∈ listed_lines stdout →
  lists_match preferred line →
  ∃ j q, (j ≤ i)%nat ∧ priority !! j = Some q
         ∧ PyText.is_in q (PyText.lower model_name) = true.
Proof.
  cbn [_check_ollama]. change (negb (0 =? 0)) with false. cbn iota.
  intros Hselect. pose proof (select_model_spec (listed_lines stdout)) as Hspec.
  unfold listed_lines in Hspec |- *. rewrite Hselect in Hspec.
  destruct Hspec as (_ & _ & Hpref). apply Hpref.
Qed.

(** X27. [_check_ollama] returns no model exactly when the listing timed
    out, the program was not found, it exited with a status other than
    zero, or it printed no line under the header. *)
Theorem check_ollama_returns_none (result : list_outcome) :
  _check_ollama result = Returns None
  ↔ result = ListTimeoutExpired
    ∨ result = ListFileNotFoundError
    ∨ ∃ returncode stdout,
        result = Listed returncode stdout
        ∧ (returncode ≠ 0 ∨ listed_lines stdout = []).
Proof.
  destruct result as [rc stdout| | |e]; cbn [_check_ollama].
  - destruct (Z.eqb_spec rc 0) as [->|Hrc]; cbn [negb].
    + pose proof (select_model_spec (listed_lines stdout)) as Hspec.
      unfold listed_lines in *. split.
      * intros Hnone. rewrite Hnone in Hspec. right. right.
        exists 0, stdout. split; [done|by right].
      * intros [?|[?|(rc & out & [= <- <-] & [?|Hnil])]]; [done..|].
        by rewrite Hnil.
    + split; [|done]. intros _. right. right. exists rc, stdout. auto.
  - split; [auto|done].
  - split; [auto|done].
  - split; [done|]. by intros [?|[?|(? & ? & ? & _)]].
Qed.

(** X28. After a listing that succeeded, [_check_ollama] raises exactly
    when there is a line under the header, the first such line is blank,
    and no listed name matches a preferred name: the exception is the
    index error of taking the first word of that line. *)
Theorem check_ollama_raises (stdout exception : string) :
  _check_ollama (Listed 0 stdout) = Raises exception
  ↔ exception = "IndexError"
    ∧ (∃ first rest, listed_lines stdout = first :: rest ∧ all_space first = true)
    ∧ ∀ p line, p ∈ priority → line ∈ listed_lines stdout → ¬ lists_match p line.
Proof.
  cbn [_check_ollama]. change (negb (0 =? 0)) with false. cbn iota.
  fold (listed_lines stdout).
  pose proof (select_model_spec (listed_lines stdout)) as Hspec. split.
  - intros Hraise. by rewrite Hraise in Hspec.
  - intros (-> & (first & rest & Hlines & Hblank) & Hnone). clear Hspec.
    rewrite Hlines in Hnone |- *. cbn [select_model].
    destruct (first_preferred_spec priority (first :: rest))
      as [(m & j & q & _ & Hq & Hmatch & (line & Hin & Hhead) & _)|[-> _]].
    + destruct (Hnone q line); [by eapply list_elem_of_lookup_2|done|].
      by exists m.
    + apply split_nil in Hblank. by rewrite Hblank.
Qed.

Lemma check_ollama_returns_listed_witness :
  "Qwen2.5-Coder:14b" ≠ ""
  ∧ ∃ stdout line,
      Listed 0 Scenes.listing = Listed 0 stdout
      ∧ line ∈ listed_lines stdout
      ∧ head (PyText.split line) = Some "Qwen2.5-Coder:14b".
Proof.
  apply (check_ollama_returns_listed (Listed 0 Scenes.listing)). reflexivity.
Defined.

Lemma check_ollama_prefers_witness :
  ∃ j q, (j ≤ 3)%nat ∧ priority !! j = Some q
         ∧ PyText.is_in q (PyText.lower "Qwen2.5-Coder:14b") = true.
Proof.
  apply (check_ollama_prefers Scenes.listing "Qwen2.5-Coder:14b" 3 "mistral"
           "mistral:7b           f974a74358d6    4.1 GB    3 weeks ago").
  - reflexivity.
  - reflexivity.
  - by apply (bool_decide_unpack _); vm_compute.
  - exists "mistral:7b". split; reflexivity.
Defined.

(** X29. A reply to a chunk analysis made of white space only is an empty
    reply: the result is the error text for it and nothing is cached. *)
Theorem analyze_chunk_blank_reply (env : environment) (chunk_id : nat)
    (c : chunk) (w : world) (stdout stderr : string) :
  cache_dir w !! cache_file chunk_id = None →
  ollama env (length (backend_calls w)) (analysis_prompt c)
    = Completed 0 stdout stderr →
  all_space stdout = true →
  analyze_chunk env chunk_id c w
  = ((chunk_id, "ERROR: Ollama returned empty response", false),
     called (analysis_prompt c) w).
Proof.
  intros Hmiss Hreply Hblank%strip_all_space.
  rewrite (analyze_chunk_miss env chunk_id c w Hmiss). cbn zeta.
  rewrite Hreply, Hblank. done.
Qed.

Lemma analyze_chunk_blank_reply_witness :
  let env :=
    Scenario.environment_of
      (λ _ _, Completed 0 ("  " +:+ PyStr.nl +:+ " ") "")
      Scenario.one_token_per_character Scenario.in_submission_order in
  let c := [Scenario.file "a.py" 7] in
  analyze_chunk env 0 c Scenario.empty_world
  = ((0%nat, "ERROR: Ollama returned empty response", false),
     called (analysis_prompt c) Scenario.empty_world).
Proof.
  intros env c.
  apply (analyze_chunk_blank_reply env 0 c Scenario.empty_world
           ("  " +:+ PyStr.nl +:+ " ") ""); reflexivity.
Defined.
